(** * hustlrsbackendv1: request authorization, response shaping and signup

    A shallow embedding of the Express middleware
    ([src/middleware/auth.middleware.js]), the auth routes
    ([src/routes/auth.routes.js]), the auth service
    ([src/services/auth.service.js]) and the [handle_new_user] trigger of the
    SQL schema, followed by the properties of the specification that hold of
    them.

    JavaScript values are modelled as the code uses them: [undefined] and
    [null] as [None], objects as records, thrown exceptions and rejected
    promises as the [Rejected] outcome of a small state-and-exception monad
    whose state holds the database and the log of the calls made to the
    Supabase client.  What the repository does not determine (the answers of
    the identity provider, the transport, validator.js [isEmail], the clock,
    [NODE_ENV]) is a parameter. *)

From Stdlib Require Import String Ascii ZArith List Bool Lia.
From stdpp Require Import base option list gmap strings.
Import ListNotations.
Local Open Scope string_scope.
Local Open Scope Z_scope.
Set Warnings "-register-all".

(** ** JavaScript values *)

Module Js.

(** JSON values as sent by [res.json].  A key whose value is [undefined]
    is dropped by serialization, see [obj]. *)
Inductive Json : Type :=
| JNull
| JBool (b : bool)
| JNum (n : Z)
| JStr (s : string)
| JArr (items : list Json)
| JObj (fields : list (string * Json)).

(** An object literal; [None] stands for a field whose value is
    [undefined], which does not appear in the serialized body. *)
Fixpoint defined_fields (l : list (string * option Json)) : list (string * Json) :=
  match l with
  | [] => []
  | (k, Some v) :: l' => (k, v) :: defined_fields l'
  | (_, None) :: l' => defined_fields l'
  end.

Definition obj (fields : list (string * option Json)) : Json :=
  JObj (defined_fields fields).

(** Property read on a JSON value: [o.k]. *)
Fixpoint assoc (k : string) (fields : list (string * Json)) : option Json :=
  match fields with
  | [] => None
  | (k', v) :: rest => if String.eqb k k' then Some v else assoc k rest
  end.

Definition field (k : string) (j : Json) : option Json :=
  match j with
  | JObj fields => assoc k fields
  | _ => None
  end.

(** Truthiness of a string-or-undefined value: [!!s]. *)
Definition truthy_str (s : option string) : bool :=
  match s with
  | None => false
  | Some EmptyString => false
  | Some _ => true
  end.

(** [a || b] on strings-or-undefined. *)
Definition or_else (a : option string) (b : string) : string :=
  match a with
  | Some s => if truthy_str a then s else b
  | None => b
  end.

(** [s.startsWith(p)] *)
Definition startsWith (s p : string) : bool := String.prefix p s.

(** [s.split(sep)] for a one-character separator. *)
Fixpoint split (sep : ascii) (s : string) : list string :=
  match s with
  | EmptyString => [EmptyString]
  | String c s' =>
      if Ascii.eqb c sep then EmptyString :: split sep s'
      else match split sep s' with
           | seg :: rest => String c seg :: rest
           | [] => [String c EmptyString]
           end
  end.

(** The part of [s] before the first [sep] (all of [s] when there is
    none). *)
Fixpoint up_to (sep : ascii) (s : string) : string :=
  match s with
  | EmptyString => EmptyString
  | String c s' => if Ascii.eqb c sep then EmptyString else String c (up_to sep s')
  end.

(** Does the character occur in the string? *)
Fixpoint contains (c : ascii) (s : string) : bool :=
  match s with
  | EmptyString => false
  | String c' s' => Ascii.eqb c' c || contains c s'
  end.

(** [arr.includes(x)] on an array of strings. *)
Definition includes (arr : list string) (x : string) : bool :=
  existsb (String.eqb x) arr.

(** An error object: what the code reads of it is [name], [message] and
    [stack]. *)
Record JsError : Type := mkError {
  err_name : option string;
  err_message : option string;
  err_stack : option string
}.

Definition TypeError (msg : string) : JsError :=
  mkError (Some "TypeError") (Some msg) (Some (String.append "TypeError: " msg)).

(** The outcome of awaiting a promise, or of running a block that may
    throw. *)
Inductive Outcome (A : Type) : Type :=
| Resolved (a : A)
| Rejected (e : JsError).
Arguments Resolved {A} a.
Arguments Rejected {A} e.

End Js.
Export Js.

(** ** The Supabase project: database and client *)

Module Supabase.

(** A row of [auth.users], with the [raw_user_meta_data] keys the trigger
    reads. *)
Record AuthUser : Type := mkAuthUser {
  au_id : string;
  au_email : string;
  au_first_name : option string;
  au_last_name : option string;
  au_user_type : option string
}.

(** [CREATE TYPE user_role AS ENUM ('CUSTOMER', 'HUSTLER', 'ADMIN')] *)
Inductive user_role : Type := CUSTOMER | HUSTLER | ADMIN.

Definition role_name (r : user_role) : string :=
  match r with
  | CUSTOMER => "CUSTOMER"
  | HUSTLER => "HUSTLER"
  | ADMIN => "ADMIN"
  end.

(** The cast [(text)::user_role]; [None] is the cast error. *)
Definition role_of_text (s : string) : option user_role :=
  if String.eqb s "CUSTOMER" then Some CUSTOMER
  else if String.eqb s "HUSTLER" then Some HUSTLER
  else if String.eqb s "ADMIN" then Some ADMIN
  else None.

(** A row of [public.profiles]: the columns written by the code and by
    the trigger.  [id] is the primary key (the key of the map below),
    [email] is [UNIQUE NOT NULL], the names are [NOT NULL]. *)
Record ProfileRow : Type := mkProfile {
  p_email : string;
  p_first_name : string;
  p_last_name : string;
  p_user_type : user_role
}.

Record DB : Type := mkDB {
  auth_users : gmap string AuthUser;
  profiles : gmap string ProfileRow;
  trigger_installed : bool      (* [on_auth_user_created] exists *)
}.

(** The user object the client returns. *)
Record User : Type := mkUser {
  id : string;
  email : option string;
  email_confirmed_at : option string;
  role : option string
}.

Record Session : Type := mkSession {
  access_token : string;
  refresh_token : string;
  expires_in : Z;
  token_type : string
}.

(** [{ data: { user }, error }] of [auth.getUser]; [gu_data = None] is a
    response without a [data] object. *)
Record GetUserResp : Type := mkGetUserResp {
  gu_data : option (option User);
  gu_error : option JsError
}.

(** [{ data: profile, error }] of
    [from('profiles').select('user_type').eq('id', _).single()]. *)
Record SingleResp : Type := mkSingleResp {
  sg_data : option string;          (* [profile.user_type] *)
  sg_error : option JsError
}.

(** [{ data: { user, session }, error }] of [auth.signUp] and
    [auth.signInWithPassword]. *)
Record AuthResp : Type := mkAuthResp {
  ar_user : option User;
  ar_session : option Session;
  ar_error : option JsError
}.

(** [{ data: { session }, error }] of [auth.getSession]. *)
Record SessionResp : Type := mkSessionResp {
  ss_data : option (option Session);
  ss_error : option JsError
}.

(** [{ data, error }] of calls whose data the code does not inspect. *)
Record PlainResp : Type := mkPlainResp {
  pl_data : option Json;
  pl_error : option JsError
}.

(** The error a call without inspected data ended with: thrown by the
    call or returned in [error]. *)
Definition failure_of (o : Outcome PlainResp) : option JsError :=
  match o with
  | Rejected e => Some e
  | Resolved resp => pl_error resp
  end.

(** The row object passed to [from('profiles').insert([...])]. *)
Record ProfileInput : Type := mkProfileInput {
  pi_id : string;
  pi_email : string;
  pi_first_name : string;
  pi_last_name : string;
  pi_user_type : string
}.

(** The argument of [auth.signUp]. *)
Record SignUpReq : Type := mkSignUpReq {
  su_email : string;
  su_password : string;
  su_first_name : string;
  su_last_name : string;
  su_user_type : string
}.

(** Calls made to the client, in the order they are made. *)
Inductive Call : Type :=
| CGetUser (token : option string)
| CSelectProfile (uid : string)
| CSignUp (r : SignUpReq)
| CInsertProfile (row : ProfileInput)
| CSignIn (em pw : option string)
| CSignOut
| CGetSession
| CResetPassword (em : option string).

(** The client object [supabase], as the code uses it: each method is a
    function of its arguments and of the database, and resolves with a
    response or rejects. *)
Record Client : Type := mkClient {
  auth_getUser : option string -> DB -> Outcome GetUserResp;
  select_single : string -> DB -> Outcome SingleResp;
  auth_signUp : SignUpReq -> DB -> Outcome AuthResp * DB;
  insert_profile : ProfileInput -> DB -> Outcome PlainResp * DB;
  auth_signIn : option string -> option string -> DB -> Outcome AuthResp;
  auth_signOut : DB -> Outcome PlainResp;
  auth_getSession : DB -> Outcome SessionResp;
  auth_resetPassword : option string -> DB -> Outcome PlainResp
}.

End Supabase.
Export Supabase.

(** ** The effect monad: state (database, call log) and exceptions *)

Module Eff.

Record World : Type := mkWorld {
  db : DB;
  calls : list Call
}.

Definition M (A : Type) : Type := World -> Outcome A * World.

Definition ret {A} (a : A) : M A := fun w => (Resolved a, w).

Definition bind {A B} (m : M A) (k : A -> M B) : M B :=
  fun w =>
    match m w with
    | (Resolved a, w') => k a w'
    | (Rejected e, w') => (Rejected e, w')
    end.

(** [throw e] *)
Definition throw {A} (e : JsError) : M A := fun w => (Rejected e, w).

(** [try { body } catch (error) { handler(error) }] *)
Definition try_catch {A} (body : M A) (handler : JsError -> M A) : M A :=
  fun w =>
    match body w with
    | (Resolved a, w') => (Resolved a, w')
    | (Rejected e, w') => handler e w'
    end.

(** [await] on a client call that only reads the database. *)
Definition await_read {A} (c : Call) (f : DB -> Outcome A) : M A :=
  fun w => (f (db w), mkWorld (db w) (calls w ++ [c])).

(** [await] on a client call that may write the database. *)
Definition await_write {A} (c : Call) (f : DB -> Outcome A * DB) : M A :=
  fun w => let '(o, d) := f (db w) in (o, mkWorld d (calls w ++ [c])).

End Eff.
Export Eff.

#[export] Instance M_ret : MRet M := @Eff.ret.
#[export] Instance M_bind : MBind M := fun A B k m => Eff.bind m k.

(** ** Express: requests, responses, middleware *)

Module Express.

Record Response : Type := mkResponse {
  status : Z;
  body : Json
}.

(** [res.status(code).json(payload)] *)
Definition json (code : Z) (payload : Json) : Response :=
  mkResponse code payload.

(** A field of the parsed JSON body.  Bodies are modelled as flat objects
    whose fields are strings or [null]; an absent key reads [undefined]. *)
Inductive Field : Type :=
| FNull
| FStr (s : string).

(** One entry of [errors.array()] of express-validator. *)
Record ValidationError : Type := mkVError {
  ve_path : string;
  ve_msg : string;
  ve_value : option Field
}.

Record Req : Type := mkReq {
  authorization : option string;     (* [req.headers.authorization] *)
  user : option User;                (* [req.user] *)
  req_body : gmap string Field;      (* [req.body] *)
  verrors : list ValidationError     (* what [validationResult(req)] reads *)
}.

Definition set_user (u : User) (r : Req) : Req :=
  mkReq (authorization r) (Some u) (req_body r) (verrors r).

Definition add_verrors (es : list ValidationError) (r : Req) : Req :=
  mkReq (authorization r) (user r) (req_body r) (verrors r ++ es).

(** A middleware either answers or calls [next()] with the request as it
    left it. *)
Inductive Step : Type :=
| Respond (r : Response)
| Next (r : Req).

Definition Middleware : Type := Req -> M Step.

(** A route's handler list run in order; the last handler's [Next] falls
    through to the rest of the application. *)
Fixpoint run_chain (ms : list Middleware) (r : Req) : M Step :=
  match ms with
  | [] => mret (Next r)
  | m :: rest =>
      s ← m r;
      match s with
      | Respond resp => mret (Respond resp)
      | Next r' => run_chain rest r'
      end
  end.

(** [{ success: false, error: msg }] *)
Definition failure (msg : string) : Json :=
  JObj [("success", JBool false); ("error", JStr msg)].

End Express.
Export Express.

(** ** src/middleware/auth.middleware.js *)

Module Middleware.
Section WithClient.

Variable supabase : Client.

(** [const { data: { user }, error } = await supabase.auth.getUser(token)]:
    destructuring a response without [data] throws. *)
Definition destructure_getUser (r : GetUserResp) : M (option User * option JsError) :=
  match gu_data r with
  | Some u => mret (u, gu_error r)
  | None => throw (TypeError "Cannot destructure property 'user' of 'data'")
  end.

Definition requireAuth : Middleware := fun req =>
  try_catch
    (let authHeader := authorization req in
     if negb (truthy_str authHeader)
        || negb (startsWith (default EmptyString authHeader) "Bearer ")
     then mret (Respond (json 401 (failure "No token, authorization denied")))
     else
       let token := split " " (default EmptyString authHeader) !! 1%nat in
       resp ← await_read (CGetUser token) (auth_getUser supabase token);
       '(user, error) ← destructure_getUser resp;
       match error, user with
       | None, Some u => mret (Next (set_user u req))
       | _, _ => mret (Respond (json 401 (failure "Token is not valid")))
       end)
    (fun _ =>
       mret (Respond (json 500 (failure "Server error during authentication")))).

(** [req.user.role = profile.user_type] *)
Definition with_role (u : User) (r : string) : User :=
  mkUser (id u) (email u) (email_confirmed_at u) (Some r).

Definition requireRole (roles : list string) : Middleware := fun req =>
  try_catch
    (match user req with
     | None => mret (Respond (json 401 (failure "Authentication required")))
     | Some u =>
         resp ← await_read (CSelectProfile (id u)) (select_single supabase (id u));
         match sg_error resp, sg_data resp with
         | None, Some user_type =>
             if negb (length roles =? 0)%nat && negb (includes roles user_type)
             then mret (Respond (json 403
                          (failure "Access denied. Insufficient permissions.")))
             else mret (Next (set_user (with_role u user_type) req))
         | _, _ =>
             mret (Respond (json 403
                     (failure "Access denied. User profile not found.")))
         end
     end)
    (fun _ =>
       mret (Respond (json 500 (failure "Server error during authorization")))).

End WithClient.

(** [process.env.NODE_ENV === 'development'] is passed as [development]. *)
Definition errorHandler (development : bool) (err : JsError) : Response :=
  if bool_decide (err_name err = Some "JsonWebTokenError")
  then json 401 (failure "Invalid token")
  else if bool_decide (err_name err = Some "TokenExpiredError")
  then json 401 (failure "Token expired")
  else json 500 (obj [("success", Some (JBool false));
                      ("error", Some (JStr "Something went wrong!"));
                      ("message", if development
                                  then JStr <$> err_message err
                                  else None)]).

Definition notFound : Response := json 404 (failure "Endpoint not found").

End Middleware.
Export Middleware.

(** ** The database side: schema constraints and the signup trigger *)

Module Postgres.

(** [email TEXT UNIQUE NOT NULL]: is the address already in the table? *)
Definition email_taken (em : string) (t : gmap string ProfileRow) : bool :=
  existsb (fun kr => String.eqb (p_email (snd kr)) em) (map_to_list t).

Definition with_profiles (t : gmap string ProfileRow) (d : DB) : DB :=
  mkDB (auth_users d) t (trigger_installed d).

Definition with_auth_users (t : gmap string AuthUser) (d : DB) : DB :=
  mkDB t (profiles d) (trigger_installed d).

(** [COALESCE((NEW.raw_user_meta_data->>'user_type')::user_role, 'CUSTOMER')];
    [None] when the cast raises. *)
Definition coalesce_user_type (t : option string) : option user_role :=
  match t with
  | Some s => role_of_text s
  | None => Some CUSTOMER
  end.

(** [public.handle_new_user()], fired after an insert on [auth.users]:
    [INSERT INTO public.profiles ... ON CONFLICT (id) DO NOTHING].
    [None] when the statement raises (cast error, [NOT NULL] or [UNIQUE]
    violation), which aborts the insert that fired it. *)
Definition handle_new_user (NEW : AuthUser) (d : DB) : option DB :=
  match coalesce_user_type (au_user_type NEW) with
  | None => None
  | Some ut =>
      match au_first_name NEW, au_last_name NEW with
      | Some fn, Some ln =>
          match profiles d !! au_id NEW with
          | Some _ => Some d
          | None =>
              if email_taken (au_email NEW) (profiles d) then None
              else Some (with_profiles
                           (<[au_id NEW := mkProfile (au_email NEW) fn ln ut]>
                              (profiles d)) d)
          end
      | _, _ => None
      end
  end.

(** The provider's answer to a sign-up request. *)
Inductive Decision : Type :=
| Created (u : User) (s : option Session)
| Refused (e : JsError)
| Failed (e : JsError).

(** A failure injected by the transport or by row-level security. *)
Inductive Fault : Type :=
| FError (e : JsError)
| FThrow (e : JsError).

(** The answers the repository does not determine. *)
Record Provider : Type := mkProvider {
  verify : option string -> Outcome GetUserResp;
  decide_signUp : SignUpReq -> Decision;
  signIn_answer : option string -> option string -> Outcome AuthResp;
  signOut_answer : Outcome PlainResp;
  session_answer : Outcome SessionResp;
  reset_answer : option string -> Outcome PlainResp;
  select_fault : string -> option Fault;
  insert_fault : ProfileInput -> option Fault
}.

(** A PostgREST error object: it has a [message] and no [name]. *)
Definition pg_error (msg : string) : JsError :=
  mkError None (Some msg) None.

Definition db_error_saving_user : JsError :=
  mkError (Some "AuthApiError") (Some "Database error saving new user") None.

Definition duplicate_pkey : JsError :=
  pg_error "duplicate key value violates unique constraint profiles_pkey".

Definition duplicate_email : JsError :=
  pg_error "duplicate key value violates unique constraint profiles_email_key".

Definition invalid_enum : JsError :=
  pg_error "invalid input value for enum user_role".

Definition fkey_violation : JsError :=
  pg_error "insert or update on table profiles violates foreign key constraint".

Definition no_rows : JsError :=
  pg_error "JSON object requested, multiple (or no) rows returned".

Section WithProvider.

Variable P : Provider.

(** [auth.signUp]: when the provider creates the account, the row goes
    into [auth.users] and the trigger, if installed, fires in the same
    transaction. *)
Definition pg_signUp (r : SignUpReq) (d : DB) : Outcome AuthResp * DB :=
  match decide_signUp P r with
  | Failed e => (Rejected e, d)
  | Refused e => (Resolved (mkAuthResp None None (Some e)), d)
  | Created u s =>
      match auth_users d !! id u with
      | Some _ => (Resolved (mkAuthResp None None (Some db_error_saving_user)), d)
      | None =>
          let NEW := mkAuthUser (id u) (su_email r) (Some (su_first_name r))
                       (Some (su_last_name r)) (Some (su_user_type r)) in
          let d1 := with_auth_users (<[id u := NEW]> (auth_users d)) d in
          if trigger_installed d then
            match handle_new_user NEW d1 with
            | Some d2 => (Resolved (mkAuthResp (Some u) s None), d2)
            | None => (Resolved (mkAuthResp None None (Some db_error_saving_user)), d)
            end
          else (Resolved (mkAuthResp (Some u) s None), d1)
      end
  end.

(** [from('profiles').insert([row])] against the table's constraints. *)
Definition pg_insert (row : ProfileInput) (d : DB) : Outcome PlainResp * DB :=
  match insert_fault P row with
  | Some (FThrow e) => (Rejected e, d)
  | Some (FError e) => (Resolved (mkPlainResp None (Some e)), d)
  | None =>
      match role_of_text (pi_user_type row) with
      | None => (Resolved (mkPlainResp None (Some invalid_enum)), d)
      | Some ut =>
          match profiles d !! pi_id row with
          | Some _ => (Resolved (mkPlainResp None (Some duplicate_pkey)), d)
          | None =>
              if email_taken (pi_email row) (profiles d)
              then (Resolved (mkPlainResp None (Some duplicate_email)), d)
              else match auth_users d !! pi_id row with
                   | None => (Resolved (mkPlainResp None (Some fkey_violation)), d)
                   | Some _ =>
                       (Resolved (mkPlainResp None None),
                        with_profiles
                          (<[pi_id row := mkProfile (pi_email row) (pi_first_name row)
                                            (pi_last_name row) ut]> (profiles d)) d)
                   end
          end
      end
  end.

(** [from('profiles').select('user_type').eq('id', uid).single()] *)
Definition pg_select_single (uid : string) (d : DB) : Outcome SingleResp :=
  match select_fault P uid with
  | Some (FThrow e) => Rejected e
  | Some (FError e) => Resolved (mkSingleResp None (Some e))
  | None =>
      match profiles d !! uid with
      | Some row => Resolved (mkSingleResp (Some (role_name (p_user_type row))) None)
      | None => Resolved (mkSingleResp None (Some no_rows))
      end
  end.

Definition pg_client : Client :=
  mkClient (fun t _ => verify P t) pg_select_single pg_signUp pg_insert
    (fun e p _ => signIn_answer P e p) (fun _ => signOut_answer P)
    (fun _ => session_answer P) (fun e _ => reset_answer P e).

End WithProvider.
End Postgres.
Export Postgres.

(** ** src/services/auth.service.js *)

Module AuthService.

(** What every method returns: [{ success, data?, error? }].  The routes
    also read [message] and [details], which this service never sets. *)
Record Result (D : Type) : Type := mkResult {
  success : bool;
  data : option D;
  error : option string;
  message : option string;
  details : option Json
}.
Arguments mkResult {D}.
Arguments success {D}.
Arguments data {D}.
Arguments error {D}.
Arguments message {D}.
Arguments details {D}.

Definition ok {D} (d : option D) : Result D := mkResult true d None None None.

(** [{ success: false, error: error.message || fallback }] *)
Definition failed {D} (e : JsError) (fallback : string) : Result D :=
  mkResult false None (Some (or_else (err_message e) fallback)) None None.

(** [{ user, session }] *)
Record AuthData : Type := mkAuthData {
  ad_user : option User;
  ad_session : option Session
}.

Record UserData : Type := mkUserData {
  firstName : string;
  lastName : string;
  userType : string
}.

Section WithClient.

Variable supabase : Client.

Definition signUp (email password : string) (userData : UserData) : M (Result AuthData) :=
  try_catch
    (let r := mkSignUpReq email password (firstName userData) (lastName userData)
                (userType userData) in
     authData ← await_write (CSignUp r) (auth_signUp supabase r);
     match ar_error authData with
     | Some signUpError => throw signUpError
     | None =>
         match ar_user authData with
         | None => throw (TypeError "Cannot read properties of null (reading 'id')")
         | Some u =>
             let row := mkProfileInput (id u) email (firstName userData)
                          (lastName userData) (userType userData) in
             ins ← await_write (CInsertProfile row) (insert_profile supabase row);
             match pl_error ins with
             | Some profileError => throw profileError
             | None => mret (ok (Some (mkAuthData (ar_user authData) (ar_session authData))))
             end
         end
     end)
    (fun e => mret (failed e "Failed to sign up user")).

Definition signIn (email password : option string) : M (Result AuthData) :=
  try_catch
    (r ← await_read (CSignIn email password) (auth_signIn supabase email password);
     match ar_error r with
     | Some e => throw e
     | None => mret (ok (Some (mkAuthData (ar_user r) (ar_session r))))
     end)
    (fun e => mret (failed e "Failed to sign in")).

Definition signOut : M (Result unit) :=
  try_catch
    (r ← await_read CSignOut (auth_signOut supabase);
     match pl_error r with
     | Some e => throw e
     | None => mret (ok None)
     end)
    (fun e => mret (failed e "Failed to sign out")).

(** [const { data: { session }, error } = await supabase.auth.getSession()] *)
Definition getSession : M (Result (option Session)) :=
  try_catch
    (r ← await_read CGetSession (auth_getSession supabase);
     match ss_data r with
     | None => throw (TypeError "Cannot destructure property 'session' of 'data'")
     | Some session =>
         match ss_error r with
         | Some e => throw e
         | None => mret (ok (Some session))
         end
     end)
    (fun e => mret (failed e "Failed to get session")).

(** [supabase.auth.getUser()] without a token. *)
Definition getUser : M (Result (option User)) :=
  try_catch
    (r ← await_read (CGetUser None) (auth_getUser supabase None);
     match gu_data r with
     | None => throw (TypeError "Cannot destructure property 'user' of 'data'")
     | Some u =>
         match gu_error r with
         | Some e => throw e
         | None => mret (ok (Some u))
         end
     end)
    (fun e => mret (failed e "Failed to get user")).

Definition resetPassword (email : option string) : M (Result Json) :=
  try_catch
    (r ← await_read (CResetPassword email) (auth_resetPassword supabase email);
     match pl_error r with
     | Some e => throw e
     | None => mret (ok (pl_data r))
     end)
    (fun e => mret (failed e "Failed to send password reset email")).

End WithClient.
End AuthService.
Export AuthService.

(** ** src/routes/auth.routes.js and the application (server.js) *)

Module Routes.

Definition opt_str (s : option string) : Json :=
  match s with
  | Some x => JStr x
  | None => JNull
  end.

Definition user_json (u : User) : Json :=
  JObj [("id", JStr (id u)); ("email", opt_str (email u));
        ("email_confirmed_at", opt_str (email_confirmed_at u));
        ("role", opt_str (role u))].

Definition session_json (s : Session) : Json :=
  JObj [("access_token", JStr (access_token s));
        ("refresh_token", JStr (refresh_token s));
        ("expires_in", JNum (expires_in s));
        ("token_type", JStr (token_type s))].

Definition nullable {A} (enc : A -> Json) (o : option A) : Json :=
  match o with
  | Some x => enc x
  | None => JNull
  end.

(** [res.json(result)] for a service result. *)
Definition result_json {D} (enc : D -> Json) (r : Result D) : Json :=
  obj [("success", Some (JBool (success r)));
       ("data", enc <$> data r);
       ("error", JStr <$> error r);
       ("message", JStr <$> message r);
       ("details", details r)].

Definition field_json (f : Field) : Json :=
  match f with
  | FNull => JNull
  | FStr s => JStr s
  end.

Definition verror_json (e : ValidationError) : Json :=
  obj [("type", Some (JStr "field"));
       ("value", field_json <$> ve_value e);
       ("msg", Some (JStr (ve_msg e)));
       ("path", Some (JStr (ve_path e)));
       ("location", Some (JStr "body"))].

(** *** express-validator *)

(** The string a standard validator is run on: express-validator turns
    [undefined] and [null] into the empty string. *)
Definition toString (v : option Field) : string :=
  match v with
  | Some (FStr s) => s
  | _ => EmptyString
  end.

(** A validation chain [body(path, msg).<check>()]. *)
Record Check : Type := mkCheck {
  path : string;
  msg : string;
  passes : option Field -> bool
}.

(** Running a chain records an error when the check fails... *)
Definition record_check (c : Check) (req : Req) : Req :=
  let v := req_body req !! path c in
  if passes c v then req else add_verrors [mkVError (path c) (msg c) v] req.

(** ...and always calls [next()]. *)
Definition check_body (c : Check) : Middleware :=
  fun req => mret (Next (record_check c req)).

(** The request after a list of chains has run on it. *)
Definition run_checks (cs : list Check) (req : Req) : Req :=
  fold_left (fun r c => record_check c r) cs req.

(** The errors a list of chains records for a body. *)
Definition check_errors (cs : list Check) (b : gmap string Field) : list ValidationError :=
  flat_map (fun c => if passes c (b !! path c) then []
                     else [mkVError (path c) (msg c) (b !! path c)]) cs.

(** The body [validate] answers with. *)
Definition validation_body (errors : list ValidationError) : Json :=
  JObj [("success", JBool false); ("errors", JArr (map verror_json errors))].

(** [isLength({ min: n })] *)
Definition isLength_min (n : nat) (v : option Field) : bool :=
  (n <=? String.length (toString v))%nat.

(** [not().isEmpty()] *)
Definition not_isEmpty (v : option Field) : bool :=
  negb (String.length (toString v) =? 0)%nat.

(** [isIn(values)] *)
Definition isIn (values : list string) (v : option Field) : bool :=
  includes values (toString v).

(** [exists()]: the value is not [undefined]. *)
Definition exists_ (v : option Field) : bool :=
  match v with
  | Some _ => true
  | None => false
  end.

(** [validate]: answers 400 when [validationResult(req)] is not empty. *)
Definition validate : Middleware := fun req =>
  match verrors req with
  | [] => mret (Next req)
  | errors => mret (Respond (json 400 (validation_body errors)))
  end.

(** A truthy body field, as a string. *)
Definition truthy_field (v : option Field) : option string :=
  match v with
  | Some (FStr s) => if truthy_str (Some s) then Some s else None
  | _ => None
  end.

(** A body field handed to the client as it is ([null] and [undefined]
    both reach it as no string). *)
Definition field_str (v : option Field) : option string :=
  match v with
  | Some (FStr s) => Some s
  | _ => None
  end.

(** The routes the application mounts; anything else is [Unmatched]. *)
Inductive Endpoint : Type :=
| Health
| Signup
| Signin
| Signout
| GetSession
| GetUser
| ResetPassword
| Unmatched.

(** The routes registered with validation chains and [validate]. *)
Definition validated (e : Endpoint) : bool :=
  match e with
  | Signup | Signin | ResetPassword => true
  | _ => false
  end.

Section WithEnvironment.

Variable supabase : Client.
Variable isEmail : string -> bool.       (* validator.js *)
Variable development : bool.             (* NODE_ENV === 'development' *)
Variable now : string.                   (* new Date().toISOString() *)

Definition isEmail_field (v : option Field) : bool := isEmail (toString v).

Definition signup_handler : Middleware := fun req =>
  try_catch
    (match truthy_field (req_body req !! "email"),
           truthy_field (req_body req !! "password"),
           truthy_field (req_body req !! "firstName"),
           truthy_field (req_body req !! "lastName"),
           truthy_field (req_body req !! "userType") with
     | Some em, Some pw, Some fn, Some ln, Some ut =>
         result ← signUp supabase em pw (mkUserData fn ln ut);
         if negb (success result) then
           mret (Respond (json 400
             (obj [("success", Some (JBool false));
                   ("error", Some (JStr (or_else (error result)
                                           "Failed to create user account")));
                   ("details", details result)])))
         else
           match data result with
           | None => throw (TypeError "Cannot read properties of undefined (reading 'user')")
           | Some d =>
               match ad_user d with
               | None => throw (TypeError "Cannot read properties of null (reading 'id')")
               | Some u =>
                   let userResponse :=
                     JObj [("id", JStr (id u)); ("email", opt_str (email u));
                           ("firstName", JStr fn); ("lastName", JStr ln);
                           ("userType", JStr ut);
                           ("isVerified",
                            JBool (bool_decide (email_confirmed_at u <> None)))] in
                   mret (Respond (json 201
                     (JObj [("success", JBool true);
                            ("message", JStr (or_else (message result)
                                                "User registered successfully"));
                            ("data", JObj [("user", userResponse);
                                           ("session",
                                            nullable session_json (ad_session d))])])))
               end
           end
     | _, _, _, _, _ =>
         mret (Respond (json 400 (failure "Missing required fields")))
     end)
    (fun e =>
       mret (Respond (json 500
         (obj [("success", Some (JBool false));
               ("error", Some (JStr (or_else (err_message e)
                                       "Server error during signup")));
               ("details", if development then JStr <$> err_stack e else None)])))).

Definition signin_handler : Middleware := fun req =>
  try_catch
    (result ← signIn supabase (field_str (req_body req !! "email"))
                (field_str (req_body req !! "password"));
     if negb (success result) then
       mret (Respond (json 400
         (result_json (fun d => JObj [("user", nullable user_json (ad_user d));
                                      ("session", nullable session_json (ad_session d))])
            result)))
     else
       match data result with
       | None => throw (TypeError "Cannot read properties of undefined (reading 'user')")
       | Some d =>
           mret (Respond (json 200
             (JObj [("success", JBool true);
                    ("message", JStr "User logged in successfully");
                    ("data", JObj [("user", nullable user_json (ad_user d));
                                   ("session", nullable session_json (ad_session d))])])))
       end)
    (fun _ => mret (Respond (json 500 (failure "Server error during signin")))).

Definition signout_handler : Middleware := fun req =>
  try_catch
    (result ← signOut supabase;
     if negb (success result) then
       mret (Respond (json 400 (result_json (fun _ : unit => JNull) result)))
     else
       mret (Respond (json 200
         (JObj [("success", JBool true);
                ("message", JStr "User logged out successfully")]))))
    (fun _ => mret (Respond (json 500 (failure "Server error during signout")))).

Definition session_data_json (s : option Session) : Json :=
  JObj [("session", nullable session_json s)].

Definition session_handler : Middleware := fun req =>
  try_catch
    (result ← getSession supabase;
     if negb (success result) then
       mret (Respond (json 401 (result_json session_data_json result)))
     else
       mret (Respond (json 200
         (obj [("success", Some (JBool true));
               ("data", session_data_json <$> data result)]))))
    (fun _ => mret (Respond (json 500 (failure "Server error while getting session")))).

Definition user_data_json (u : option User) : Json :=
  JObj [("user", nullable user_json u)].

Definition user_handler : Middleware := fun req =>
  try_catch
    (result ← getUser supabase;
     if negb (success result) then
       mret (Respond (json 401 (result_json user_data_json result)))
     else
       mret (Respond (json 200
         (obj [("success", Some (JBool true));
               ("data", user_data_json <$> data result)]))))
    (fun _ => mret (Respond (json 500 (failure "Server error while getting user data")))).

Definition reset_handler : Middleware := fun req =>
  try_catch
    (result ← resetPassword supabase (field_str (req_body req !! "email"));
     if negb (success result) then
       mret (Respond (json 400 (result_json (fun d : Json => d) result)))
     else
       mret (Respond (json 200
         (JObj [("success", JBool true);
                ("message", JStr "Password reset email sent successfully")]))))
    (fun _ =>
       mret (Respond (json 500
               (failure "Server error while processing password reset")))).

Definition health : Middleware := fun _ =>
  mret (Respond (json 200
    (JObj [("success", JBool true);
           ("message", JStr "Server is running");
           ("timestamp", JStr now)]))).

(** The validation chains of the three validated routes. *)
Definition signup_checks : list Check :=
  [mkCheck "email" "Please include a valid email" isEmail_field;
   mkCheck "password" "Please enter a password with 6 or more characters"
     (isLength_min 6);
   mkCheck "firstName" "First name is required" not_isEmpty;
   mkCheck "lastName" "Last name is required" not_isEmpty;
   mkCheck "userType" "User type is required" (isIn ["CUSTOMER"; "HUSTLER"])].

Definition signin_checks : list Check :=
  [mkCheck "email" "Please include a valid email" isEmail_field;
   mkCheck "password" "Password is required" exists_].

Definition reset_checks : list Check :=
  [mkCheck "email" "Please include a valid email" isEmail_field].

(** The chains of a route; only three routes are validated. *)
Definition checks (e : Endpoint) : list Check :=
  match e with
  | Signup => signup_checks
  | Signin => signin_checks
  | ResetPassword => reset_checks
  | _ => []
  end.

(** The handler that does the route's work. *)
Definition handler (e : Endpoint) : option Middleware :=
  match e with
  | Health => Some health
  | Signup => Some signup_handler
  | Signin => Some signin_handler
  | Signout => Some signout_handler
  | GetSession => Some session_handler
  | GetUser => Some user_handler
  | ResetPassword => Some reset_handler
  | Unmatched => None
  end.

(** What [router.post(path, [...chains, validate], handler)] and the
    unvalidated routes register. *)
Definition handlers (e : Endpoint) : list Middleware :=
  match handler e with
  | None => []
  | Some h =>
      match checks e with
      | [] => [h]
      | cs => map check_body cs ++ [validate; h]
      end
  end.

(** A request through the application: the route's handlers, then
    [notFound] when none of them answered. *)
Definition serve (e : Endpoint) (req : Req) : M Response :=
  s ← run_chain (handlers e) req;
  match s with
  | Respond r => mret r
  | Next _ => mret notFound
  end.

End WithEnvironment.
End Routes.
Export Routes.

(** ** The specification's own definitions

    These follow the words of the specification, not the code; the theorems
    below compare the code with them. *)

Module Spec.

(** Section 4.3: the variants of [AuthError] and the two extra rows. *)
Inductive AuthError : Type :=
| MissingCredential
| InvalidCredential
| ProviderUnavailable
| ProfileNotFound
| InsufficientRole.

Inductive Cause : Type :=
| Auth (e : AuthError)
| UnhandledRoute
| UncaughtException.

(** The mapping table of section 4.3. *)
Definition table (c : Cause) : Z * string :=
  match c with
  | Auth MissingCredential => (401, "No token, authorization denied")
  | Auth InvalidCredential => (401, "Token is not valid")
  | Auth ProviderUnavailable => (500, "Server error during authentication")
  | Auth ProfileNotFound => (403, "Access denied. User profile not found.")
  | Auth InsufficientRole => (403, "Access denied. Insufficient permissions.")
  | UnhandledRoute => (404, "Endpoint not found")
  | UncaughtException => (500, "Something went wrong!")
  end.

Definition causes : list Cause :=
  [Auth MissingCredential; Auth InvalidCredential; Auth ProviderUnavailable;
   Auth ProfileNotFound; Auth InsufficientRole; UnhandledRoute; UncaughtException].

Definition rows : list (Z * string) := map table causes.

(** [toResponse]: the status and the failure envelope of a row. *)
Definition toResponse (c : Cause) : Response :=
  json (fst (table c)) (failure (snd (table c))).

(** Section 4.3: the success and the failure envelope. *)
Definition success_envelope (b : Json) : Prop :=
  field "success" b = Some (JBool true) /\ is_Some (field "data" b).

Definition failure_envelope (b : Json) : Prop :=
  field "success" b = Some (JBool false) /\
  exists msg, field "error" b = Some (JStr msg).

End Spec.

(** The status and the [error] text of a response. *)
Definition status_error (r : Response) : option (Z * string) :=
  match field "error" (body r) with
  | Some (JStr m) => Some (status r, m)
  | _ => None
  end.

(** Status and message pairs of the middleware that are not rows of the
    specification's table. *)
Definition extra_rows : list (Z * string) :=
  [(401, "Invalid token"); (401, "Token expired");
   (401, "Authentication required"); (500, "Server error during authorization")].

(** A service result is either a success without an error or a failure
    with a message and nothing else. *)
Definition settled {D} (r : Result D) : Prop :=
  (success r = true /\ error r = None /\ message r = None /\ details r = None)
  \/ (exists m, r = mkResult false None (Some m) None None).

(** The routes whose success body carries [data]. *)
Definition carries_data (e : Endpoint) : bool :=
  match e with
  | Signup | Signin | GetSession | GetUser => true
  | _ => false
  end.

(** The routes whose success body carries [message]. *)
Definition carries_message (e : Endpoint) : bool :=
  match e with
  | Health | Signup | Signin | Signout | ResetPassword => true
  | _ => false
  end.

(** A handler run to its response; a handler that calls [next()] falls
    through to [notFound]. *)
Definition serve_handler (h : Middleware) (req : Req) (w : World)
    : Outcome Response * World :=
  match h req w with
  | (Resolved (Respond r), w') => (Resolved r, w')
  | (Resolved (Next _), w') => (Resolved notFound, w')
  | (Rejected e, w') => (Rejected e, w')
  end.

(** The shape every response body of the application has. *)
Definition shaped (e : Endpoint) (r : Response) : Prop :=
  field "success" (body r) = Some (JBool (status r <? 400))
  /\ (status r < 400 ->
      (carries_data e = true -> is_Some (field "data" (body r)))
      /\ (carries_data e = false -> field "data" (body r) = None)
      /\ (carries_message e = true ->
          exists m, field "message" (body r) = Some (JStr m)))
  /\ (400 <= status r ->
      (exists m, field "error" (body r) = Some (JStr m))
      \/ (status r = 400 /\ validated e = true
          /\ field "error" (body r) = None
          /\ exists l, l <> [] /\ field "errors" (body r) = Some (JArr l))).

(** The response a middleware step gave, if it gave one. *)
Definition answered (o : Outcome Step * World) : option Response :=
  match fst o with
  | Resolved (Respond r) => Some r
  | _ => None
  end.

(** ** Concrete scenarios *)

Module Scenario.

Definition u1 : User := mkUser "u1" (Some "ada@example.org") None (Some "authenticated").
Definition u2 : User := mkUser "u2" (Some "bob@example.org") None (Some "authenticated").
Definition u9 : User := mkUser "u9" (Some "eve@example.org") None (Some "authenticated").

Definition invalid_jwt : JsError :=
  mkError (Some "AuthApiError") (Some "invalid JWT") None.

Definition fetch_failed : JsError :=
  mkError (Some "TypeError") (Some "fetch failed") None.

Definition jwt_error : JsError :=
  mkError (Some "JsonWebTokenError") (Some "jwt malformed") None.

(** A provider that knows two tokens, is unreachable for the token
    [down], and creates the account [u9] on sign-up. *)
Definition provider : Provider :=
  mkProvider
    (fun t =>
       if bool_decide (t = Some "abc123")
       then Resolved (mkGetUserResp (Some (Some u1)) None)
       else if bool_decide (t = Some "tok2")
       then Resolved (mkGetUserResp (Some (Some u2)) None)
       else if bool_decide (t = Some "down")
       then Rejected fetch_failed
       else Resolved (mkGetUserResp (Some None) (Some invalid_jwt)))
    (fun _ => Created u9 None)
    (fun _ _ => Resolved (mkAuthResp None None (Some invalid_jwt)))
    (Resolved (mkPlainResp None None))
    (Resolved (mkSessionResp (Some None) None))
    (fun _ => Resolved (mkPlainResp None None))
    (fun _ => None)
    (fun _ => None).

Definition client : Client := pg_client provider.

(** The same provider behind a transport on which every query throws. *)
Definition provider_offline : Provider :=
  mkProvider (verify provider) (decide_signUp provider) (signIn_answer provider)
    (signOut_answer provider) (session_answer provider) (reset_answer provider)
    (fun _ => Some (FThrow fetch_failed)) (fun _ => Some (FThrow fetch_failed)).

Definition expired_error : JsError :=
  mkError (Some "TokenExpiredError") (Some "jwt expired") None.

Definition plain_error : JsError :=
  mkError (Some "Error") (Some "boom") (Some "Error: boom").

(** [u1] is a HUSTLER, [u2] an ADMIN, and the trigger is installed. *)
Definition database : DB :=
  mkDB
    (<["u1" := mkAuthUser "u1" "ada@example.org" (Some "Ada") (Some "L") (Some "HUSTLER")]>
       (<["u2" := mkAuthUser "u2" "bob@example.org" (Some "Bob") (Some "M") (Some "ADMIN")]> ∅))
    (<["u1" := mkProfile "ada@example.org" "Ada" "L" HUSTLER]>
       (<["u2" := mkProfile "bob@example.org" "Bob" "M" ADMIN]> ∅))
    true.

Definition world : World := mkWorld database [].

Definition request (header : option string) : Req := mkReq header None ∅ [].

Definition request_as (u : User) : Req := mkReq None (Some u) ∅ [].

Definition signup_body : gmap string Field :=
  <["email" := FStr "eve@example.org"]>
    (<["password" := FStr "secret1"]>
       (<["firstName" := FStr "Eve"]>
          (<["lastName" := FStr "N"]>
             (<["userType" := FStr "CUSTOMER"]> ∅)))).

Definition post (b : gmap string Field) : Req := mkReq None None b [].

(** The same body with a malformed address. *)
Definition malformed_email_body : gmap string Field :=
  <["email" := FStr "eve.example.org"]> signup_body.

(** A sign-in body with a three-letter password. *)
Definition signin_short_body : gmap string Field :=
  <["email" := FStr "eve@example.org"]> (<["password" := FStr "abc"]> ∅).

(** A stand-in for validator.js [isEmail]: the address has an [@]. *)
Definition has_at (s : string) : bool := contains "@" s.

End Scenario.

(** ** The other service files and [updateProfile]

    Two more versions of the service are in the repository: one that
    leaves the profile row to the trigger and one that checks for the row
    and inserts it when it is missing.  Their calls carry arguments the
    calls above do not have, so they are logged with their own call type. *)

Module Extended.

(** [str.includes(sub)] on strings. *)
Fixpoint str_includes (s sub : string) : bool :=
  String.prefix sub s
  || match s with
     | EmptyString => false
     | String _ s' => str_includes s' sub
     end.

(** The row object of the defensive insert: [email] is [user.email], which
    may be [undefined]. *)
Record RowInput : Type := mkRowInput {
  ri_id : string;
  ri_email : option string;
  ri_first_name : string;
  ri_last_name : string;
  ri_user_type : string
}.

Inductive XCall : Type :=
| XSignUp (r : SignUpReq) (emailRedirectTo : string)
| XGetUser (token : option string)
| XSelectStar (uid : string)
| XInsertReturning (row : RowInput)
| XUpdate (uid : string) (updates : list (string * Json)).

(** [{ data: row, error }] of a query that returns one profile row. *)
Record RowResp : Type := mkRowResp {
  rw_data : option ProfileRow;
  rw_error : option JsError
}.

(** The client methods these files call:
    [auth.signUp] with [emailRedirectTo], [auth.getUser],
    [from('profiles').select('*').eq('id', _).single()],
    [from('profiles').insert([_]).select().single()] and
    [from('profiles').update(_).eq('id', _).select()]. *)
Record XClient : Type := mkXClient {
  x_signUp : SignUpReq -> string -> DB -> Outcome AuthResp * DB;
  x_getUser : option string -> DB -> Outcome GetUserResp;
  x_select_star : string -> DB -> Outcome RowResp;
  x_insert_returning : RowInput -> DB -> Outcome RowResp * DB;
  x_update : string -> list (string * Json) -> DB -> Outcome PlainResp * DB
}.

Record XWorld : Type := mkXWorld {
  xdb : DB;
  xcalls : list XCall
}.

Definition X (A : Type) : Type := XWorld -> Outcome A * XWorld.

Definition xret {A} (a : A) : X A := fun w => (Resolved a, w).

Definition xbind {A B} (m : X A) (k : A -> X B) : X B :=
  fun w =>
    match m w with
    | (Resolved a, w') => k a w'
    | (Rejected e, w') => (Rejected e, w')
    end.

Definition xthrow {A} (e : JsError) : X A := fun w => (Rejected e, w).

Definition xtry_catch {A} (body : X A) (handler : JsError -> X A) : X A :=
  fun w =>
    match body w with
    | (Resolved a, w') => (Resolved a, w')
    | (Rejected e, w') => handler e w'
    end.

Definition xawait {A} (c : XCall) (f : DB -> Outcome A * DB) : X A :=
  fun w => let '(o, d) := f (xdb w) in (o, mkXWorld d (xcalls w ++ [c])).

Definition xawait_read {A} (c : XCall) (f : DB -> Outcome A) : X A :=
  fun w => (f (xdb w), mkXWorld (xdb w) (xcalls w ++ [c])).

(** [process.env.SUPABASE_REDIRECT_URL || 'http://localhost:3000/auth/callback'] *)
Definition redirect_url (SUPABASE_REDIRECT_URL : option string) : string :=
  or_else SUPABASE_REDIRECT_URL "http://localhost:3000/auth/callback".

Definition signup_message : string :=
  "Signup successful! Please check your email to verify your account.".

(** The database-backed client for these calls.  The redirect only
    chooses the link of the confirmation mail; the answer to [update] is
    left to the parameter. *)
Definition pg_select_star (P : Provider) (uid : string) (d : DB) : Outcome RowResp :=
  match select_fault P uid with
  | Some (FThrow e) => Rejected e
  | Some (FError e) => Resolved (mkRowResp None (Some e))
  | None =>
      match profiles d !! uid with
      | Some row => Resolved (mkRowResp (Some row) None)
      | None => Resolved (mkRowResp None (Some no_rows))
      end
  end.

Definition not_null_email : JsError :=
  pg_error "null value in column email violates not-null constraint".

Definition pg_insert_returning (P : Provider) (row : RowInput) (d : DB)
    : Outcome RowResp * DB :=
  match ri_email row with
  | None => (Resolved (mkRowResp None (Some not_null_email)), d)
  | Some em =>
      let input := mkProfileInput (ri_id row) em (ri_first_name row)
                     (ri_last_name row) (ri_user_type row) in
      match pg_insert P input d with
      | (Rejected e, d') => (Rejected e, d')
      | (Resolved resp, d') =>
          match pl_error resp with
          | Some e => (Resolved (mkRowResp None (Some e)), d')
          | None => (Resolved (mkRowResp (profiles d' !! ri_id row) None), d')
          end
      end
  end.

Definition pg_xclient (P : Provider)
    (update : string -> list (string * Json) -> DB -> Outcome PlainResp * DB)
    : XClient :=
  mkXClient (fun r _ => pg_signUp P r) (fun t _ => verify P t)
    (pg_select_star P) (pg_insert_returning P) update.

End Extended.
Export Extended.

#[export] Instance X_ret : MRet X := @Extended.xret.
#[export] Instance X_bind : MBind X := fun A B k m => Extended.xbind m k.

(** *** The service that leaves the profile to the trigger *)

Module TriggerOnly.
Section WithClient.

Variable supabase : XClient.
Variable SUPABASE_REDIRECT_URL : option string.

Definition signUp (email password : string) (userData : UserData) : X (Result AuthData) :=
  xtry_catch
    (let r := mkSignUpReq email password (firstName userData) (lastName userData)
                (userType userData) in
     let emailRedirectTo := redirect_url SUPABASE_REDIRECT_URL in
     authData ← xawait (XSignUp r emailRedirectTo) (x_signUp supabase r emailRedirectTo);
     match ar_error authData with
     | Some signUpError => xthrow signUpError
     | None =>
         mret (mkResult true
                 (Some (mkAuthData (ar_user authData) (ar_session authData)))
                 None (Some signup_message) None)
     end)
    (fun e => mret (failed e "Failed to sign up user")).

End WithClient.
End TriggerOnly.

(** The same function over a client whose resolved answer may lack the
    [data] object.  After the check of the error, line 29 reads
    [authData.user?.id]: the optional chaining guards [user], not
    [authData], so an answer without [data] throws a TypeError inside the
    [try] and ends in the [catch]. *)
Module TriggerOnlyAny.

(** [{ data: authData, error: signUpError }] *)
Record SignUpAnswer : Type := mkSignUpAnswer {
  sa_data : option AuthData;
  sa_error : option JsError
}.

Section WithClient.

Variable auth_signUp : SignUpReq -> string -> DB -> Outcome SignUpAnswer * DB.
Variable SUPABASE_REDIRECT_URL : option string.

Definition signUp (email password : string) (userData : UserData) : X (Result AuthData) :=
  xtry_catch
    (let r := mkSignUpReq email password (firstName userData) (lastName userData)
                (userType userData) in
     let emailRedirectTo := redirect_url SUPABASE_REDIRECT_URL in
     answer ← xawait (XSignUp r emailRedirectTo) (auth_signUp r emailRedirectTo);
     match sa_error answer with
     | Some signUpError => xthrow signUpError
     | None =>
         match sa_data answer with
         | None =>
             xthrow (TypeError "Cannot read properties of undefined (reading 'user')")
         | Some authData =>
             mret (mkResult true
                     (Some (mkAuthData (ad_user authData) (ad_session authData)))
                     None (Some signup_message) None)
         end
     end)
    (fun e => mret (failed e "Failed to sign up user")).

End WithClient.

(** The answers of a client that always sends a [data] object. *)
Definition with_data (f : SignUpReq -> string -> DB -> Outcome AuthResp * DB)
    (r : SignUpReq) (emailRedirectTo : string) (d : DB)
    : Outcome SignUpAnswer * DB :=
  match f r emailRedirectTo d with
  | (Resolved resp, d') =>
      (Resolved (mkSignUpAnswer (Some (mkAuthData (ar_user resp) (ar_session resp)))
                   (ar_error resp)), d')
  | (Rejected e, d') => (Rejected e, d')
  end.

End TriggerOnlyAny.

(** *** The service that inserts the profile when the trigger did not *)

Module Defensive.
Section WithClient.

Variable supabase : XClient.
Variable SUPABASE_REDIRECT_URL : option string.

Definition already_registered : JsError :=
  mkError (Some "Error")
    (Some "This email is already registered. Please sign in instead.")
    (Some "Error: This email is already registered. Please sign in instead.").

Definition success_result (authData : AuthResp) : Result AuthData :=
  mkResult true (Some (mkAuthData (ar_user authData) (ar_session authData)))
    None (Some signup_message) None.

Definition signUp (email password : string) (userData : UserData) : X (Result AuthData) :=
  xtry_catch
    (let r := mkSignUpReq email password (firstName userData) (lastName userData)
                (userType userData) in
     let emailRedirectTo := redirect_url SUPABASE_REDIRECT_URL in
     authData ← xawait (XSignUp r emailRedirectTo) (x_signUp supabase r emailRedirectTo);
     match ar_error authData with
     | Some signUpError =>
         match err_message signUpError with
         | None =>
             xthrow (TypeError "Cannot read properties of undefined (reading 'includes')")
         | Some m =>
             if str_includes m "already registered"
             then xthrow already_registered
             else xthrow signUpError
         end
     | None =>
         match ar_user authData with
         | None => xthrow (TypeError "Cannot read properties of null (reading 'id')")
         | Some created =>
             got ← xawait_read (XGetUser (Some (id created)))
                     (x_getUser supabase (Some (id created)));
             match gu_data got with
             | None => xthrow (TypeError "Cannot destructure property 'user' of 'data'")
             | Some user =>
                 match gu_error got with
                 | Some userError => xthrow userError
                 | None =>
                     match user with
                     | None =>
                         xthrow (TypeError "Cannot read properties of null (reading 'id')")
                     | Some u =>
                         found ← xawait_read (XSelectStar (id u))
                                   (x_select_star supabase (id u));
                         match rw_error found, rw_data found with
                         | None, Some _ => mret (success_result authData)
                         | _, _ =>
                             let row := mkRowInput (id u) (Supabase.email u) (firstName userData)
                                          (lastName userData) (userType userData) in
                             created_row ← xawait (XInsertReturning row)
                                             (x_insert_returning supabase row);
                             match rw_error created_row with
                             | Some createProfileError => xthrow createProfileError
                             | None => mret (success_result authData)
                             end
                         end
                     end
                 end
             end
         end
     end)
    (fun e => mret (failed e "Failed to sign up user")).

End WithClient.
End Defensive.

(** *** [updateProfile], the same in the three service files *)

Module Profile.
Section WithClient.

Variable supabase : XClient.

Definition updateProfile (userId : string) (updates : list (string * Json))
    : X (Result Json) :=
  xtry_catch
    (r ← xawait (XUpdate userId updates) (x_update supabase userId updates);
     match pl_error r with
     | Some e => xthrow e
     | None => mret (mkResult true (pl_data r) None None None)
     end)
    (fun e => mret (failed e "Failed to update profile")).

End WithClient.
End Profile.

(** ** src/config/supabase.js: the session storage handed to the client *)

Module Config.

(** [window] is [undefined] on the server; in a browser it gives
    [localStorage]. *)
Definition getItem (window : option (gmap string string)) (key : string)
    : option string :=
  match window with
  | None => None
  | Some localStorage => localStorage !! key
  end.

Definition setItem (window : option (gmap string string)) (key value : string)
    : option (gmap string string) :=
  match window with
  | None => None
  | Some localStorage => Some (<[key := value]> localStorage)
  end.

Definition removeItem (window : option (gmap string string)) (key : string)
    : option (gmap string string) :=
  match window with
  | None => None
  | Some localStorage => Some (delete key localStorage)
  end.

(** What the client does with its storage. *)
Inductive StorageOp : Type :=
| SetItem (key value : string)
| RemoveItem (key : string).

Definition apply_op (window : option (gmap string string)) (op : StorageOp)
    : option (gmap string string) :=
  match op with
  | SetItem k v => setItem window k v
  | RemoveItem k => removeItem window k
  end.

End Config.

(** ** A protected route *)

(** [router.get(path, requireAuth, requireRole(roles), handler)]: the two
    middlewares in the order they are written for. *)
Definition protect (sb : Client) (roles : list string) : list Middleware :=
  [requireAuth sb; requireRole sb roles].

(** A request that arrives with [req.user] already set. *)
Definition forged_request : Req :=
  mkReq (Some "Bearer abc123")
    (Some (mkUser "u2" (Some "bob@example.org") None (Some "ADMIN"))) ∅ [].

(** A service call that ended well: it resolved, and its result is a
    success without an error or a failure without data whose message is not
    empty. *)
Definition clean {D W} (o : Outcome (Result D) * W) : Prop :=
  exists r w',
    o = (Resolved r, w')
    /\ ((success r = true /\ error r = None)
        \/ (success r = false /\ data r = None
            /\ exists m, error r = Some m /\ m <> EmptyString)).

(** Does the check fail on the body? *)
Definition fails_on (b : gmap string Field) (c : Check) : bool :=
  negb (passes c (b !! path c)).

(** A sign-in body whose password is [null]. *)
Definition null_password_body : gmap string Field :=
  <["email" := FStr "eve@example.org"]> (<["password" := FNull]> ∅).

(** A project without accounts, profiles or trigger. *)
Definition fresh_world : World := mkWorld (mkDB ∅ ∅ false) [].

(** The account of Eve as the provider inserts it, and the database
    before and after the trigger has run on it. *)
Definition new_eve : AuthUser :=
  mkAuthUser "u9" "eve@example.org" (Some "Eve") (Some "N") (Some "CUSTOMER").

Definition before_trigger : DB :=
  with_auth_users (<["u9" := new_eve]> (auth_users Scenario.database))
    Scenario.database.

Definition after_trigger : DB :=
  with_profiles
    (<["u9" := mkProfile "eve@example.org" "Eve" "N" CUSTOMER]>
       (profiles Scenario.database)) before_trigger.

(** A provider like [Scenario.provider] whose [getUser] also answers when
    it is handed the identifier [u9] in place of a token. *)
Definition provider_lenient : Provider :=
  mkProvider
    (fun t => if bool_decide (t = Some "u9")
              then Resolved (mkGetUserResp (Some (Some Scenario.u9)) None)
              else verify Scenario.provider t)
    (decide_signUp Scenario.provider) (signIn_answer Scenario.provider)
    (signOut_answer Scenario.provider) (session_answer Scenario.provider)
    (reset_answer Scenario.provider) (select_fault Scenario.provider)
    (insert_fault Scenario.provider).

(** An [update] that is refused. *)
Definition update_refused (uid : string) (updates : list (string * Json)) (d : DB)
    : Outcome PlainResp * DB :=
  (Resolved (mkPlainResp None (Some (pg_error "permission denied"))), d).

Definition xworld (d : DB) : XWorld := mkXWorld d [].

Definition eve_request : SignUpReq :=
  mkSignUpReq "eve@example.org" "secret1" "Eve" "N" "CUSTOMER".

Definition eve : UserData := mkUserData "Eve" "N" "CUSTOMER".

(** The database once Eve's account exists, without trigger or profile. *)
Definition eve_created : DB := mkDB (<["u9" := new_eve]> ∅) ∅ false.

(** A provider that refuses every sign-up because the address is taken. *)
Definition user_already_registered : JsError :=
  mkError (Some "AuthApiError") (Some "User already registered") None.

Definition provider_taken : Provider :=
  mkProvider (verify Scenario.provider) (fun _ => Refused user_already_registered)
    (signIn_answer Scenario.provider) (signOut_answer Scenario.provider)
    (session_answer Scenario.provider) (reset_answer Scenario.provider)
    (select_fault Scenario.provider) (insert_fault Scenario.provider).

(** The statuses a route answers with. *)
Definition statuses (e : Endpoint) : list Z :=
  match e with
  | Health => [200]
  | Signup => [201; 400]
  | Signin | Signout | ResetPassword => [200; 400]
  | GetSession | GetUser => [200; 401]
  | Unmatched => [404]
  end.

(** ** server.js: what stands around the routes

    The stack in the order it is registered (lines 17 to 46).  [helmet] and
    [morgan] set headers and log, and always continue.  [cors] ends an
    OPTIONS request itself, with 204 and no body, and continues otherwise.
    [express.json] and [express.urlencoded] either leave the parsed body in
    [req.body] or pass their error to [next]; an error passed to [next]
    skips the routes and [notFound] and is answered by [errorHandler]. *)
Module Application.

Inductive Incoming : Type :=
| Preflight                            (* an OPTIONS request *)
| Unparsable (err : JsError)           (* a body parser called [next(err)] *)
| Parsed (e : Endpoint) (req : Req).   (* the request reaches the routes *)

Inductive Answer : Type :=
| NoContent (code : Z)
| Sent (r : Response).

Definition answer_status (a : Answer) : Z :=
  match a with
  | NoContent code => code
  | Sent r => status r
  end.

Section WithEnvironment.

Variable supabase : Client.
Variable isEmail : string -> bool.
Variable development : bool.
Variable now : string.

Definition app (i : Incoming) : M Answer :=
  match i with
  | Preflight => mret (NoContent 204)
  | Unparsable err => mret (Sent (errorHandler development err))
  | Parsed e req =>
      r ← serve supabase isEmail development now e req;
      mret (Sent r)
  end.

End WithEnvironment.
End Application.

(** A provider that cannot be reached, behind a client that reports the
    failed request in [error] and does not throw. *)
Definition retryable_fetch_error : JsError :=
  mkError (Some "AuthRetryableFetchError") (Some "fetch failed") None.

Definition provider_unreachable : Provider :=
  mkProvider
    (fun _ => Resolved (mkGetUserResp (Some None) (Some retryable_fetch_error)))
    (decide_signUp Scenario.provider) (signIn_answer Scenario.provider)
    (signOut_answer Scenario.provider) (session_answer Scenario.provider)
    (reset_answer Scenario.provider)
    (fun _ => Some (FError retryable_fetch_error))
    (insert_fault Scenario.provider).

(** * Properties *)

(** ** Running the monad *)

Lemma includes_elem_of (arr : list string) (x : string) :
  includes arr x = true <-> x ∈ arr.
Proof.
  unfold includes. rewrite existsb_exists. split.
  - intros (y & Hy & Heq). apply String.eqb_eq in Heq. subst y.
    by apply list_elem_of_In.
  - intros Hx. exists x. split; [by apply list_elem_of_In | apply String.eqb_refl].
Qed.

Lemma split_head (sep : ascii) (s : string) :
  exists rest, split sep s = up_to sep s :: rest.
Proof.
  induction s as [|c s IH]; simpl.
  - by exists [].
  - destruct (Ascii.eqb c sep).
    + by exists (split sep s).
    + destruct IH as [rest ->]. by exists rest.
Qed.

Lemma bearer_token (rest : string) :
  split " " (String.append "Bearer " rest) !! 1%nat = Some (up_to " " rest).
Proof.
  destruct (split_head " " rest) as [tl Htl].
  change (String.append "Bearer " rest) with
    (String "B" (String "e" (String "a" (String "r" (String "e" (String "r"
       (String " " rest))))))).
  simpl. rewrite Htl. reflexivity.
Qed.

Lemma up_to_no_sep (sep : ascii) (s : string) :
  contains sep s = false -> up_to sep s = s.
Proof.
  induction s as [|c s IH]; simpl; [done|].
  intros H. apply orb_false_elim in H as [Hc Hs].
  rewrite Hc. by rewrite IH.
Qed.

Lemma prefix_append (p s : string) :
  String.prefix p s = true -> exists rest, s = String.append p rest.
Proof.
  revert s. induction p as [|a p IH]; intros s.
  - by exists s.
  - destruct s as [|b s]; simpl; [discriminate|].
    destruct (ascii_dec a b) as [->|]; [|discriminate].
    intros H. destruct (IH s H) as [rest ->]. by exists rest.
Qed.

Lemma startsWith_append (p rest : string) :
  startsWith (String.append p rest) p = true.
Proof.
  unfold startsWith. induction p as [|a p IH]; simpl.
  - by destruct rest.
  - destruct (ascii_dec a a); [exact IH | done].
Qed.

Lemma startsWith_bearer (h : string) :
  startsWith h "Bearer " = true -> exists rest, h = String.append "Bearer " rest.
Proof. apply prefix_append. Qed.

(** The call [requireAuth] makes, and nothing else, once the header has
    the scheme prefix. *)
Lemma requireAuth_bearer_run (sb : Client) (req : Req) (w : World) (h : string) :
  authorization req = Some h ->
  startsWith h "Bearer " = true ->
  let token := split " " h !! 1%nat in
  requireAuth sb req w =
    let w' := mkWorld (db w) (calls w ++ [CGetUser token]) in
    match auth_getUser sb token (db w) with
    | Rejected _ =>
        (Resolved (Respond (json 500 (failure "Server error during authentication"))), w')
    | Resolved resp =>
        match gu_data resp with
        | None =>
            (Resolved (Respond (json 500 (failure "Server error during authentication"))), w')
        | Some user =>
            match gu_error resp, user with
            | None, Some u => (Resolved (Next (set_user u req)), w')
            | _, _ => (Resolved (Respond (json 401 (failure "Token is not valid"))), w')
            end
        end
    end.
Proof.
  intros Hh Hp token. unfold requireAuth, try_catch. rewrite Hh.
  change (default EmptyString (Some h)) with h.
  assert (truthy_str (Some h) = true) as ->.
  { destruct (startsWith_bearer h Hp) as [rest ->]. reflexivity. }
  rewrite Hp. cbn [negb orb].
  unfold mbind, M_bind, bind, await_read. fold token.
  destruct (auth_getUser sb token (db w)) as [resp|e]; [|reflexivity].
  unfold destructure_getUser.
  destruct (gu_data resp) as [user|]; [|reflexivity].
  cbn. destruct (gu_error resp), user; reflexivity.
Qed.

(** The lookup [requireRole] makes, and nothing else, once [req.user] is
    set. *)
Lemma requireRole_user_run (sb : Client) (roles : list string) (req : Req)
    (w : World) (u : User) :
  user req = Some u ->
  requireRole sb roles req w =
    let w' := mkWorld (db w) (calls w ++ [CSelectProfile (id u)]) in
    match select_single sb (id u) (db w) with
    | Rejected _ =>
        (Resolved (Respond (json 500 (failure "Server error during authorization"))), w')
    | Resolved resp =>
        match sg_error resp, sg_data resp with
        | None, Some user_type =>
            if negb (length roles =? 0)%nat && negb (includes roles user_type)
            then (Resolved (Respond (json 403
                    (failure "Access denied. Insufficient permissions."))), w')
            else (Resolved (Next (set_user (with_role u user_type) req)), w')
        | _, _ =>
            (Resolved (Respond (json 403
               (failure "Access denied. User profile not found."))), w')
        end
    end.
Proof.
  intros Hu. unfold requireRole, try_catch. rewrite Hu.
  unfold mbind, M_bind, bind, await_read.
  destruct (select_single sb (id u) (db w)) as [resp|e]; [|reflexivity].
  destruct (sg_error resp), (sg_data resp) as [ut|]; try reflexivity.
  cbn. destruct (negb (length roles =? 0)%nat && negb (includes roles ut)); reflexivity.
Qed.

(** Without the scheme prefix [requireAuth] answers at once. *)
Lemma requireAuth_no_bearer_run (sb : Client) (req : Req) (w : World) :
  match authorization req with
  | None => True
  | Some h => startsWith h "Bearer " = false
  end ->
  requireAuth sb req w =
    (Resolved (Respond (json 401 (failure "No token, authorization denied"))), w).
Proof.
  intros H. unfold requireAuth, try_catch.
  destruct (authorization req) as [h|]; [|reflexivity].
  change (default EmptyString (Some h)) with h. rewrite H.
  by rewrite orb_true_r.
Qed.

(** ** The authenticator *)

(** C2: a request whose Authorization header is absent or does not start
    with the scheme prefix is answered 401 "No token, authorization denied"
    (the MissingCredential row), and the world, hence the log of calls to the
    provider, is left as it was: [getUser] is never called. *)
Theorem requireAuth_missing_credential (sb : Client) (req : Req) (w : World) :
  match authorization req with
  | None => True
  | Some h => startsWith h "Bearer " = false
  end ->
  requireAuth sb req w =
    (Resolved (Respond (json 401 (failure "No token, authorization denied"))), w)
  /\ Spec.toResponse (Spec.Auth Spec.MissingCredential) =
       json 401 (failure "No token, authorization denied")
  /\ calls (snd (requireAuth sb req w)) = calls w.
Proof.
  intros H. pose proof (requireAuth_no_bearer_run sb req w H) as Hrun.
  split; [exact Hrun|]. split; [reflexivity|]. by rewrite Hrun.
Qed.

Lemma requireAuth_missing_credential_witness :
  requireAuth Scenario.client (Scenario.request (Some "Basic abc123")) Scenario.world =
    (Resolved (Respond (json 401 (failure "No token, authorization denied"))),
     Scenario.world)
  /\ Spec.toResponse (Spec.Auth Spec.MissingCredential) =
       json 401 (failure "No token, authorization denied")
  /\ calls (snd (requireAuth Scenario.client (Scenario.request (Some "Basic abc123"))
                   Scenario.world)) = calls Scenario.world.
Proof.
  apply (requireAuth_missing_credential Scenario.client
           (Scenario.request (Some "Basic abc123")) Scenario.world).
  reflexivity.
Defined.

(** Scenario 7 of the specification: no Authorization header. *)
Example requireAuth_no_header :
  requireAuth Scenario.client (Scenario.request None) Scenario.world =
    (Resolved (Respond (json 401 (failure "No token, authorization denied"))),
     Scenario.world).
Proof. reflexivity. Qed.

(** C4, as stated, fails: a provider that cannot be reached and whose
    client reports that in the [error] field of a resolved call is answered
    401 "Token is not valid", the row of InvalidCredential, and not the 500 of
    ProviderUnavailable. *)
Lemma requireAuth_transient_failure_401 :
  auth_getUser (pg_client provider_unreachable) (Some "abc123") (db Scenario.world) =
    Resolved (mkGetUserResp (Some None) (Some retryable_fetch_error))
  /\ answered (requireAuth (pg_client provider_unreachable)
                 (Scenario.request (Some "Bearer abc123")) Scenario.world) =
       Some (Spec.toResponse (Spec.Auth Spec.InvalidCredential))
  /\ answered (requireAuth (pg_client provider_unreachable)
                 (Scenario.request (Some "Bearer abc123")) Scenario.world) <>
       Some (Spec.toResponse (Spec.Auth Spec.ProviderUnavailable)).
Proof. split; [reflexivity|]. split; [reflexivity | discriminate]. Qed.

(** C4, amended: for a request with a Bearer token the answer is 500 "Server
    error during authentication", the row of ProviderUnavailable, exactly
    when the awaited [getUser] rejects or resolves without a [data] object,
    and it is then not the 401 of InvalidCredential; a failure the call
    reports in the [error] field of a resolved response, whatever it
    describes, is answered 401 "Token is not valid". *)
Theorem requireAuth_call_failure (sb : Client) (req : Req) (w : World) (h : string) :
  authorization req = Some h ->
  startsWith h "Bearer " = true ->
  (answered (requireAuth sb req w) =
     Some (json 500 (failure "Server error during authentication"))
   <-> match auth_getUser sb (split " " h !! 1%nat) (db w) with
       | Rejected _ => True
       | Resolved resp => gu_data resp = None
       end)
  /\ Spec.toResponse (Spec.Auth Spec.ProviderUnavailable) =
       json 500 (failure "Server error during authentication")
  /\ Spec.toResponse (Spec.Auth Spec.ProviderUnavailable) <>
       Spec.toResponse (Spec.Auth Spec.InvalidCredential)
  /\ (forall resp e,
        auth_getUser sb (split " " h !! 1%nat) (db w) = Resolved resp ->
        is_Some (gu_data resp) ->
        gu_error resp = Some e ->
        answered (requireAuth sb req w) =
          Some (json 401 (failure "Token is not valid"))).
Proof.
  intros Hh Hp.
  rewrite (requireAuth_bearer_run sb req w h Hh Hp). cbv zeta.
  split; [|split; [reflexivity|split; [discriminate|]]].
  - destruct (auth_getUser sb _ (db w)) as [resp|e]; [|done].
    destruct (gu_data resp) as [[u|]|]; [| |done];
      destruct (gu_error resp); split; (discriminate || done).
  - intros resp e Hr [d Hd] He. by rewrite Hr, Hd, He.
Qed.

(** The token [down], on which the provider's client throws, and the
    unreachable provider whose client reports the failure instead. *)
Lemma requireAuth_call_failure_witness :
  answered (requireAuth Scenario.client (Scenario.request (Some "Bearer down"))
              Scenario.world) =
    Some (json 500 (failure "Server error during authentication"))
  /\ answered (requireAuth (pg_client provider_unreachable)
                 (Scenario.request (Some "Bearer abc123")) Scenario.world) =
       Some (json 401 (failure "Token is not valid")).
Proof.
  split.
  - destruct (requireAuth_call_failure Scenario.client
                (Scenario.request (Some "Bearer down")) Scenario.world "Bearer down"
                eq_refl eq_refl) as ([_ Hfails] & _).
    exact (Hfails I).
  - destruct (requireAuth_call_failure (pg_client provider_unreachable)
                (Scenario.request (Some "Bearer abc123")) Scenario.world
                "Bearer abc123" eq_refl eq_refl) as (_ & _ & _ & Hreported).
    apply (Hreported (mkGetUserResp (Some None) (Some retryable_fetch_error))
             retryable_fetch_error); [reflexivity | by eexists | reflexivity].
Defined.

(** Where the line is drawn: an error the client reports in the [error]
    field of a resolved call, whatever it describes, is answered 401. *)
Lemma requireAuth_reported_error (sb : Client) (req : Req) (w : World)
    (h : string) (resp : GetUserResp) (e : JsError) :
  authorization req = Some h ->
  startsWith h "Bearer " = true ->
  auth_getUser sb (split " " h !! 1%nat) (db w) = Resolved resp ->
  is_Some (gu_data resp) ->
  gu_error resp = Some e ->
  answered (requireAuth sb req w) = Some (json 401 (failure "Token is not valid")).
Proof.
  intros Hh Hp Hr [d Hd] He.
  rewrite (requireAuth_bearer_run sb req w h Hh Hp). cbv zeta.
  rewrite Hr, Hd, He. reflexivity.
Qed.

(** Testable property 3: a valid token attaches the provider's user. *)
Lemma requireAuth_valid (sb : Client) (req : Req) (w : World)
    (h : string) (u : User) :
  authorization req = Some h ->
  startsWith h "Bearer " = true ->
  auth_getUser sb (split " " h !! 1%nat) (db w) =
    Resolved (mkGetUserResp (Some (Some u)) None) ->
  fst (requireAuth sb req w) = Resolved (Next (set_user u req)).
Proof.
  intros Hh Hp Hr.
  rewrite (requireAuth_bearer_run sb req w h Hh Hp). cbv zeta.
  rewrite Hr. reflexivity.
Qed.

(** C7, as stated, fails: for the header [Bearer abc def] the provider is
    handed [abc], not the whole remainder [abc def]. *)
Lemma requireAuth_token_not_remainder :
  calls (snd (requireAuth Scenario.client (Scenario.request (Some "Bearer abc def"))
                Scenario.world)) = [CGetUser (Some "abc")]
  /\ calls (snd (requireAuth Scenario.client (Scenario.request (Some "Bearer abc def"))
                   Scenario.world)) <> [CGetUser (Some "abc def")].
Proof. split; [reflexivity | discriminate]. Qed.

(** C7, amended: for a header that starts with the scheme prefix the
    provider is called once, with the part of the remainder that precedes
    its first space ([authHeader.split(' ')[1]]); that is the whole
    remainder exactly when the remainder has no space. *)
Theorem requireAuth_token_segment (sb : Client) (req : Req) (w : World)
    (rest : string) :
  authorization req = Some (String.append "Bearer " rest) ->
  calls (snd (requireAuth sb req w)) =
    (calls w ++ [CGetUser (Some (up_to " " rest))])%list
  /\ (contains " " rest = false <-> up_to " " rest = rest).
Proof.
  intros Hh. split.
  - rewrite (requireAuth_bearer_run sb req w _ Hh (startsWith_append _ _)). cbv zeta.
    rewrite bearer_token.
    destruct (auth_getUser sb _ (db w)) as [resp|]; [|reflexivity].
    destruct (gu_data resp) as [user|]; [|reflexivity].
    destruct (gu_error resp), user; reflexivity.
  - split; [apply up_to_no_sep|].
    clear Hh. induction rest as [|c rest IH]; simpl; [done|].
    destruct (Ascii.eqb c " ") eqn:Hc; simpl; intros H.
    + discriminate H.
    + injection H as H. by apply IH.
Qed.

Lemma requireAuth_token_segment_witness :
  calls (snd (requireAuth Scenario.client (Scenario.request (Some "Bearer abc123"))
                Scenario.world)) =
    (calls Scenario.world ++ [CGetUser (Some (up_to " " "abc123"))])%list
  /\ (contains " " "abc123" = false <-> up_to " " "abc123" = "abc123").
Proof.
  apply (requireAuth_token_segment Scenario.client
           (Scenario.request (Some "Bearer abc123")) Scenario.world "abc123").
  reflexivity.
Defined.

(** ** The authorizer *)

(** C1: for an authenticated principal whose role the profile store
    resolves, a non-empty allow-list that does not contain the role is
    answered 403 "Access denied. Insufficient permissions." (the
    InsufficientRole row); with an empty allow-list every resolved role
    passes, and the request goes on with the role attached to [req.user]. *)
Theorem requireRole_allow_list (sb : Client) (roles : list string) (req : Req)
    (w : World) (u : User) (user_type : string) :
  user req = Some u ->
  select_single sb (id u) (db w) = Resolved (mkSingleResp (Some user_type) None) ->
  (roles <> [] -> user_type ∉ roles ->
   fst (requireRole sb roles req w) =
     Resolved (Respond (json 403 (failure "Access denied. Insufficient permissions.")))
   /\ Spec.toResponse (Spec.Auth Spec.InsufficientRole) =
        json 403 (failure "Access denied. Insufficient permissions."))
  /\ (roles = [] ->
      exists req' u',
        fst (requireRole sb roles req w) = Resolved (Next req')
        /\ user req' = Some u' /\ role u' = Some user_type /\ id u' = id u).
Proof.
  intros Hu Hsel.
  rewrite (requireRole_user_run sb roles req w u Hu). cbv zeta. rewrite Hsel. simpl.
  split.
  - intros Hne Hnot.
    assert (includes roles user_type = false) as ->.
    { destruct (includes roles user_type) eqn:Hin; [|done].
      by apply includes_elem_of in Hin. }
    destruct roles; [done|]. by split.
  - intros ->. simpl. by eexists _, _.
Qed.

(** Scenario 6 of the specification: [u1] is a HUSTLER and the route
    allows ADMIN only. *)
Lemma requireRole_allow_list_witness :
  (fst (requireRole Scenario.client ["ADMIN"] (Scenario.request_as Scenario.u1)
          Scenario.world) =
     Resolved (Respond (json 403 (failure "Access denied. Insufficient permissions.")))
   /\ Spec.toResponse (Spec.Auth Spec.InsufficientRole) =
        json 403 (failure "Access denied. Insufficient permissions."))
  /\ (exists req' u',
        fst (requireRole Scenario.client [] (Scenario.request_as Scenario.u1)
               Scenario.world) = Resolved (Next req')
        /\ user req' = Some u' /\ role u' = Some "HUSTLER"
        /\ id u' = id Scenario.u1).
Proof.
  split.
  - apply (requireRole_allow_list Scenario.client ["ADMIN"]
             (Scenario.request_as Scenario.u1) Scenario.world Scenario.u1 "HUSTLER");
      [reflexivity | reflexivity | discriminate |].
    intros H. apply list_elem_of_singleton in H. discriminate H.
  - apply (requireRole_allow_list Scenario.client []
             (Scenario.request_as Scenario.u1) Scenario.world Scenario.u1 "HUSTLER");
      reflexivity.
Defined.

(** Scenario 8 of the specification: [u2] is an ADMIN on an ADMIN route. *)
Example requireRole_admin :
  fst (requireRole Scenario.client ["ADMIN"] (Scenario.request_as Scenario.u2)
         Scenario.world) =
    Resolved (Next (set_user (with_role Scenario.u2 "ADMIN")
                      (Scenario.request_as Scenario.u2))).
Proof. reflexivity. Qed.

(** A role on a non-empty allow-list passes as well. *)
Lemma requireRole_member (sb : Client) (roles : list string) (req : Req)
    (w : World) (u : User) (user_type : string) :
  user req = Some u ->
  select_single sb (id u) (db w) = Resolved (mkSingleResp (Some user_type) None) ->
  user_type ∈ roles ->
  fst (requireRole sb roles req w) =
    Resolved (Next (set_user (with_role u user_type) req)).
Proof.
  intros Hu Hsel Hin.
  rewrite (requireRole_user_run sb roles req w u Hu). cbv zeta. rewrite Hsel. simpl.
  apply includes_elem_of in Hin. rewrite Hin.
  by rewrite andb_false_r.
Qed.

(** C3: when the profile store returns no profile for the principal's
    identifier, the answer is 403 "Access denied. User profile not found."
    (the ProfileNotFound row) whatever the allow-list, the empty one
    included. *)
Theorem requireRole_profile_not_found (sb : Client) (roles : list string)
    (req : Req) (w : World) (u : User) (resp : SingleResp) :
  user req = Some u ->
  select_single sb (id u) (db w) = Resolved resp ->
  sg_data resp = None ->
  fst (requireRole sb roles req w) =
    Resolved (Respond (json 403 (failure "Access denied. User profile not found.")))
  /\ Spec.toResponse (Spec.Auth Spec.ProfileNotFound) =
       json 403 (failure "Access denied. User profile not found.").
Proof.
  intros Hu Hsel Hnone.
  rewrite (requireRole_user_run sb roles req w u Hu). cbv zeta.
  rewrite Hsel, Hnone. by destruct (sg_error resp).
Qed.

Lemma requireRole_profile_not_found_witness :
  fst (requireRole Scenario.client [] (Scenario.request_as Scenario.u9)
         Scenario.world) =
    Resolved (Respond (json 403 (failure "Access denied. User profile not found.")))
  /\ Spec.toResponse (Spec.Auth Spec.ProfileNotFound) =
       json 403 (failure "Access denied. User profile not found.").
Proof.
  apply (requireRole_profile_not_found Scenario.client [] 
           (Scenario.request_as Scenario.u9) Scenario.world Scenario.u9
           (mkSingleResp None (Some no_rows))); reflexivity.
Defined.

(** The same on the table: an identifier without a row in [profiles] is
    answered 403 by the database-backed client, unless the query throws. *)
Lemma requireRole_no_row (P : Provider) (roles : list string) (req : Req)
    (w : World) (u : User) :
  user req = Some u ->
  profiles (db w) !! id u = None ->
  (forall e, select_fault P (id u) <> Some (FThrow e)) ->
  fst (requireRole (pg_client P) roles req w) =
    Resolved (Respond (json 403 (failure "Access denied. User profile not found."))).
Proof.
  intros Hu Hrow Hthrow.
  rewrite (requireRole_user_run _ roles req w u Hu). cbv zeta.
  simpl. unfold pg_select_single. rewrite Hrow.
  destruct (select_fault P (id u)) as [[e|e]|]; try reflexivity.
  by destruct (Hthrow e).
Qed.

(** C10: without [req.user] the answer is 401 "Authentication required";
    the world is left as it was, so the profile store is not called; and
    that status and message are not a row of the specification's table. *)
Theorem requireRole_unauthenticated (sb : Client) (roles : list string)
    (req : Req) (w : World) :
  user req = None ->
  requireRole sb roles req w =
    (Resolved (Respond (json 401 (failure "Authentication required"))), w)
  /\ calls (snd (requireRole sb roles req w)) = calls w
  /\ (401, "Authentication required") ∉ Spec.rows.
Proof.
  intros Hu.
  assert (requireRole sb roles req w =
    (Resolved (Respond (json 401 (failure "Authentication required"))), w)) as Hrun.
  { unfold requireRole, try_catch. by rewrite Hu. }
  split; [exact Hrun|]. split; [by rewrite Hrun|].
  unfold Spec.rows. simpl. rewrite !elem_of_cons, elem_of_nil.
  intros H. repeat (destruct H as [H|H]; [discriminate H|]). exact H.
Qed.

Lemma requireRole_unauthenticated_witness :
  requireRole Scenario.client ["ADMIN"] (Scenario.request None) Scenario.world =
    (Resolved (Respond (json 401 (failure "Authentication required"))), Scenario.world)
  /\ calls (snd (requireRole Scenario.client ["ADMIN"] (Scenario.request None)
                   Scenario.world)) = calls Scenario.world
  /\ (401, "Authentication required") ∉ Spec.rows.
Proof.
  apply (requireRole_unauthenticated Scenario.client ["ADMIN"]
           (Scenario.request None) Scenario.world).
  reflexivity.
Defined.

(** ** Response and error shaping *)

(** Settles a goal [answered run = Some r -> exists p, ...] once the run
    has been reduced to a value: the response is read off and its pair is
    looked up in the list. *)
Ltac pick_row :=
  unfold answered; simpl;
  first [ discriminate
        | intros [= <-]; eexists; (split; [reflexivity|]); set_solver ].

(** C5, as stated, fails: an uncaught exception named JsonWebTokenError is
    answered 401 "Invalid token", which is neither the row of the uncaught
    exception nor any other row of the table. *)
Lemma errorHandler_jwt_not_in_table :
  status_error (errorHandler false Scenario.jwt_error) = Some (401, "Invalid token")
  /\ status_error (errorHandler false Scenario.jwt_error) <>
       Some (Spec.table Spec.UncaughtException)
  /\ (401, "Invalid token") ∉ Spec.rows.
Proof.
  split; [reflexivity|]. split; [discriminate|].
  unfold Spec.rows. simpl. rewrite !elem_of_cons, elem_of_nil.
  intros H. repeat (destruct H as [H|H]; [discriminate H|]). exact H.
Qed.

(** C5, amended: each row of the table is produced under exactly one
    condition on the code's inputs.  [requireAuth] answers with the row of
    MissingCredential exactly when the header is absent or lacks the scheme
    prefix; with a Bearer header, with the row of InvalidCredential exactly
    when [getUser] resolves with a [data] object and an error or no user,
    whatever the error describes, and with the row of ProviderUnavailable
    exactly when the awaited call rejects or resolves without [data].
    [requireRole] answers 401 "Authentication required" exactly when no user
    is attached; with a user, with the row of ProfileNotFound exactly when
    the lookup resolves with an error or without a profile, with the row of
    InsufficientRole exactly when it resolves without error to a role
    outside a non-empty allow-list, and 500 "Server error during
    authorization" exactly when the awaited lookup rejects.  [requireAuth]
    answers with no pair outside its three rows, [requireRole] with none
    outside its two rows and the two pairs above; [notFound] answers with
    the row of the unhandled route; [errorHandler] answers with the row of
    the uncaught exception unless the exception is named JsonWebTokenError
    (401 "Invalid token") or TokenExpiredError (401 "Token expired"); and
    none of the four extra pairs is a row of the table. *)
Theorem error_mapping :
  (forall sb req w,
     answered (requireAuth sb req w) =
       Some (Spec.toResponse (Spec.Auth Spec.MissingCredential))
     <-> match authorization req with
         | None => True
         | Some h => startsWith h "Bearer " = false
         end)
  /\ (forall sb req w h,
        authorization req = Some h -> startsWith h "Bearer " = true ->
        answered (requireAuth sb req w) =
          Some (Spec.toResponse (Spec.Auth Spec.InvalidCredential))
        <-> exists resp,
              auth_getUser sb (split " " h !! 1%nat) (db w) = Resolved resp
              /\ is_Some (gu_data resp)
              /\ (gu_error resp <> None \/ gu_data resp = Some None))
  /\ (forall sb req w h,
        authorization req = Some h -> startsWith h "Bearer " = true ->
        answered (requireAuth sb req w) =
          Some (Spec.toResponse (Spec.Auth Spec.ProviderUnavailable))
        <-> match auth_getUser sb (split " " h !! 1%nat) (db w) with
            | Rejected _ => True
            | Resolved resp => gu_data resp = None
            end)
  /\ (forall sb roles req w,
        answered (requireRole sb roles req w) =
          Some (json 401 (failure "Authentication required"))
        <-> user req = None)
  /\ (forall sb roles req w u,
        user req = Some u ->
        answered (requireRole sb roles req w) =
          Some (Spec.toResponse (Spec.Auth Spec.ProfileNotFound))
        <-> exists resp,
              select_single sb (id u) (db w) = Resolved resp
              /\ (sg_error resp <> None \/ sg_data resp = None))
  /\ (forall sb roles req w u,
        user req = Some u ->
        answered (requireRole sb roles req w) =
          Some (Spec.toResponse (Spec.Auth Spec.InsufficientRole))
        <-> exists user_type,
              select_single sb (id u) (db w) =
                Resolved (mkSingleResp (Some user_type) None)
              /\ roles <> [] /\ user_type ∉ roles)
  /\ (forall sb roles req w u,
        user req = Some u ->
        answered (requireRole sb roles req w) =
          Some (json 500 (failure "Server error during authorization"))
        <-> exists e, select_single sb (id u) (db w) = Rejected e)
  /\ (forall sb req w r,
     answered (requireAuth sb req w) = Some r ->
     exists p, status_error r = Some p /\
       p ∈ map Spec.table [Spec.Auth Spec.MissingCredential;
                           Spec.Auth Spec.InvalidCredential;
                           Spec.Auth Spec.ProviderUnavailable])
  /\ (forall sb roles req w r,
        answered (requireRole sb roles req w) = Some r ->
        exists p, status_error r = Some p /\
          p ∈ (map Spec.table [Spec.Auth Spec.ProfileNotFound;
                               Spec.Auth Spec.InsufficientRole]
               ++ [(401, "Authentication required");
                   (500, "Server error during authorization")])%list)
  /\ status_error notFound = Some (Spec.table Spec.UnhandledRoute)
  /\ (forall development err,
        status_error (errorHandler development err) =
          Some (if bool_decide (err_name err = Some "JsonWebTokenError")
                then (401, "Invalid token")
                else if bool_decide (err_name err = Some "TokenExpiredError")
                then (401, "Token expired")
                else Spec.table Spec.UncaughtException))
  /\ (forall p, p ∈ extra_rows -> p ∉ Spec.rows).
Proof.
  repeat apply conj.
  - intros sb req w.
    destruct (authorization req) as [h|] eqn:Hh.
    + destruct (startsWith h "Bearer ") eqn:Hp.
      * rewrite (requireAuth_bearer_run sb req w h Hh Hp). cbv zeta.
        split; [|discriminate].
        destruct (auth_getUser sb _ (db w)) as [resp|];
          [destruct (gu_data resp) as [[u|]|]; destruct (gu_error resp)|];
          discriminate.
      * by rewrite requireAuth_no_bearer_run by (by rewrite Hh).
    + by rewrite requireAuth_no_bearer_run by (by rewrite Hh).
  - intros sb req w h Hh Hp.
    rewrite (requireAuth_bearer_run sb req w h Hh Hp). cbv zeta.
    destruct (auth_getUser sb _ (db w)) as [resp|e].
    + destruct (gu_data resp) as [[u|]|] eqn:Hd;
        destruct (gu_error resp) eqn:He; split;
        try discriminate;
        try (intros _; exists resp; rewrite Hd, He;
             split; [reflexivity|]; split; [by eexists|]; by auto);
        try reflexivity;
        intros (resp' & [= <-] & [d Hd'] & Hbad);
        destruct Hbad; congruence.
    + split; [discriminate|]. by intros (resp & ? & _).
  - intros sb req w h Hh Hp.
    rewrite (requireAuth_bearer_run sb req w h Hh Hp). cbv zeta.
    destruct (auth_getUser sb _ (db w)) as [resp|e]; [|done].
    destruct (gu_data resp) as [[u|]|]; [| |done];
      destruct (gu_error resp); split; (discriminate || done).
  - intros sb roles req w.
    destruct (user req) as [u|] eqn:Hu.
    + rewrite (requireRole_user_run sb roles req w u Hu). cbv zeta.
      split; [|discriminate].
      destruct (select_single sb (id u) (db w)) as [resp|];
        [destruct (sg_error resp), (sg_data resp) as [ut|];
         try destruct (negb (length roles =? 0)%nat && negb (includes roles ut))|];
        discriminate.
    + unfold requireRole, try_catch. rewrite Hu. done.
  - intros sb roles req w u Hu.
    rewrite (requireRole_user_run sb roles req w u Hu). cbv zeta.
    destruct (select_single sb (id u) (db w)) as [resp|e].
    + destruct (sg_error resp) eqn:He, (sg_data resp) as [ut|] eqn:Hd;
        try (split; [intros _; exists resp; rewrite ?He, ?Hd; by auto
                    | reflexivity]).
      split.
      * destruct (negb (length roles =? 0)%nat && negb (includes roles ut));
          discriminate.
      * intros (resp' & [= <-] & Hbad). destruct Hbad; congruence.
    + split; [discriminate|]. by intros (resp & ? & _).
  - intros sb roles req w u Hu.
    rewrite (requireRole_user_run sb roles req w u Hu). cbv zeta.
    destruct (select_single sb (id u) (db w)) as [[d e]|e0].
    + cbn [sg_error sg_data].
      destruct e as [e|], d as [ut|];
        try (split; [discriminate | by intros (ut' & ? & _)]).
      destruct (includes roles ut) eqn:Hin.
      * rewrite andb_false_r. split; [discriminate|].
        intros (ut' & [= <-] & _ & Hnot).
        by apply includes_elem_of in Hin.
      * destruct roles as [|r0 roles'].
        -- split; [discriminate|]. by intros (ut' & _ & ? & _).
        -- split; [|reflexivity]. intros _. exists ut.
           split; [reflexivity|]. split; [discriminate|].
           intros Hel. apply includes_elem_of in Hel. congruence.
    + split; [discriminate|]. by intros (ut' & ? & _).
  - intros sb roles req w u Hu.
    rewrite (requireRole_user_run sb roles req w u Hu). cbv zeta.
    destruct (select_single sb (id u) (db w)) as [resp|e].
    + split; [|by intros (e & ?)].
      destruct (sg_error resp), (sg_data resp) as [ut|];
        try destruct (negb (length roles =? 0)%nat && negb (includes roles ut));
        discriminate.
    + split; [by eexists | reflexivity].
  - intros sb req w r.
    destruct (authorization req) as [h|] eqn:Hh.
    + destruct (startsWith h "Bearer ") eqn:Hp.
      * rewrite (requireAuth_bearer_run sb req w h Hh Hp). cbv zeta.
        destruct (auth_getUser sb _ (db w)) as [resp|];
          [destruct (gu_data resp) as [[u|]|]; destruct (gu_error resp)|];
          pick_row.
      * rewrite requireAuth_no_bearer_run by (by rewrite Hh). pick_row.
    + rewrite requireAuth_no_bearer_run by (by rewrite Hh). pick_row.
  - intros sb roles req w r.
    destruct (user req) as [u|] eqn:Hu.
    + rewrite (requireRole_user_run sb roles req w u Hu). cbv zeta.
      destruct (select_single sb (id u) (db w)) as [resp|];
        [destruct (sg_error resp), (sg_data resp) as [ut|];
         try destruct (negb (length roles =? 0)%nat && negb (includes roles ut))|];
        pick_row.
    + unfold requireRole, try_catch. rewrite Hu. pick_row.
  - reflexivity.
  - intros development err. unfold errorHandler.
    repeat case_bool_decide; reflexivity.
  - intros p Hp. unfold extra_rows, Spec.rows in *. simpl.
    rewrite !elem_of_cons, elem_of_nil in Hp.
    rewrite !elem_of_cons, elem_of_nil.
    destruct Hp as [->|[->|[->|[->|[]]]]];
      intros H; repeat (destruct H as [H|H]; [discriminate H|]); exact H.
Qed.

(** The four pairs outside the table are all produced. *)
Lemma extra_rows_produced :
  status_error (errorHandler false Scenario.jwt_error) = Some (401, "Invalid token")
  /\ status_error (errorHandler false Scenario.expired_error) =
       Some (401, "Token expired")
  /\ (status_error <$> answered (requireRole Scenario.client []
                                  (Scenario.request None) Scenario.world)) =
       Some (Some (401, "Authentication required"))
  /\ (status_error <$> answered (requireRole (pg_client Scenario.provider_offline) []
                                  (Scenario.request_as Scenario.u1) Scenario.world)) =
       Some (Some (500, "Server error during authorization")).
Proof. repeat split. Qed.

(** The rows follow the shape of the answer, not the state of the
    provider: with the provider unreachable and the failure reported in
    [error], a user whose profile exists is answered with the row of
    ProfileNotFound. *)
Example requireRole_reported_error :
  is_Some (profiles (db Scenario.world) !! id Scenario.u1)
  /\ answered (requireRole (pg_client provider_unreachable) ["HUSTLER"]
                 (Scenario.request_as Scenario.u1) Scenario.world) =
       Some (Spec.toResponse (Spec.Auth Spec.ProfileNotFound)).
Proof. split; [by eexists | reflexivity]. Qed.

(** In development the default answer of [errorHandler] also carries the
    exception's message. *)
Example errorHandler_development :
  errorHandler true Scenario.plain_error =
    json 500 (JObj [("success", JBool false);
                    ("error", JStr "Something went wrong!");
                    ("message", JStr "boom")])
  /\ errorHandler false Scenario.plain_error =
       json 500 (failure "Something went wrong!").
Proof. split; reflexivity. Qed.

Lemma error_mapping_witness :
  answered (requireAuth Scenario.client (Scenario.request (Some "Bearer nope"))
              Scenario.world) =
    Some (json 401 (failure "Token is not valid"))
  /\ answered (requireAuth Scenario.client (Scenario.request (Some "Bearer down"))
                 Scenario.world) =
       Some (json 500 (failure "Server error during authentication"))
  /\ answered (requireRole Scenario.client ["ADMIN"] (Scenario.request_as Scenario.u1)
                 Scenario.world) =
       Some (json 403 (failure "Access denied. Insufficient permissions.")).
Proof.
  destruct error_mapping as (_ & Hinvalid & Hdown & _ & _ & Hrole & _).
  split; [|split].
  - apply (Hinvalid Scenario.client (Scenario.request (Some "Bearer nope"))
             Scenario.world "Bearer nope" eq_refl eq_refl).
    exists (mkGetUserResp (Some None) (Some Scenario.invalid_jwt)).
    split; [reflexivity|]. split; [by eexists | by left].
  - apply (Hdown Scenario.client (Scenario.request (Some "Bearer down"))
             Scenario.world "Bearer down" eq_refl eq_refl).
    exact I.
  - apply (Hrole Scenario.client ["ADMIN"] (Scenario.request_as Scenario.u1)
             Scenario.world Scenario.u1 eq_refl).
    exists "HUSTLER". split; [reflexivity|]. split; [discriminate|].
    intros H. apply list_elem_of_singleton in H. discriminate H.
Defined.

(** ** Validation *)

Lemma record_check_body (c : Check) (req : Req) :
  req_body (record_check c req) = req_body req.
Proof. unfold record_check. by destruct (passes c _). Qed.

Lemma run_checks_body (cs : list Check) (req : Req) :
  req_body (run_checks cs req) = req_body req.
Proof.
  revert req. induction cs as [|c cs IH]; intros req; [done|].
  unfold run_checks in *. simpl. by rewrite IH, record_check_body.
Qed.

Lemma run_checks_errors (cs : list Check) (req : Req) :
  verrors (run_checks cs req) = (verrors req ++ check_errors cs (req_body req))%list.
Proof.
  revert req. induction cs as [|c cs IH]; intros req.
  - simpl. by rewrite app_nil_r.
  - unfold run_checks in *. simpl. rewrite IH, record_check_body.
    unfold record_check. destruct (passes c _); simpl; [done|].
    by rewrite <- app_assoc.
Qed.

Lemma check_errors_failing (cs : list Check) (b : gmap string Field) (c : Check) :
  c ∈ cs -> passes c (b !! path c) = false -> check_errors cs b <> [].
Proof.
  intros Hin Hfail Hnil. unfold check_errors in Hnil.
  apply list_elem_of_In in Hin.
  assert (In (mkVError (path c) (msg c) (b !! path c))
            (flat_map (fun c => if passes c (b !! path c) then []
                                else [mkVError (path c) (msg c) (b !! path c)]) cs)) as H.
  { apply in_flat_map. exists c. split; [done|]. rewrite Hfail. by left. }
  rewrite Hnil in H. destruct H.
Qed.

(** The chains never answer and never touch the world. *)
Lemma run_chain_checks (cs : list Check) (rest : list Middleware) (req : Req)
    (w : World) :
  run_chain (map check_body cs ++ rest) req w = run_chain rest (run_checks cs req) w.
Proof.
  revert req. induction cs as [|c cs IH]; intros req; [done|].
  simpl. unfold mbind, M_bind, bind, check_body at 1. simpl. apply IH.
Qed.

(** What a validated route does: errors answer 400, otherwise the handler
    runs on the request. *)
Lemma run_validated (cs : list Check) (h : Middleware) (req : Req) (w : World) :
  run_chain (map check_body cs ++ [validate; h]) req w =
    match verrors (run_checks cs req) with
    | [] => run_chain [h] (run_checks cs req) w
    | errors => (Resolved (Respond (json 400 (validation_body errors))), w)
    end.
Proof.
  rewrite run_chain_checks. simpl. unfold mbind, M_bind, bind, validate.
  by destruct (verrors (run_checks cs req)).
Qed.

(** A route through the application: the chains, [validate], the
    handler. *)
Lemma serve_run (sb : Client) (isEmail : string -> bool) (development : bool)
    (now : string) (e : Endpoint) (req : Req) (w : World) (h : Middleware) :
  handler sb development now e = Some h ->
  serve sb isEmail development now e req w =
    match verrors (run_checks (checks isEmail e) req) with
    | (_ :: _) as errors =>
        if validated e
        then (Resolved (json 400 (validation_body errors)), w)
        else serve_handler h (run_checks (checks isEmail e) req) w
    | [] => serve_handler h (run_checks (checks isEmail e) req) w
    end.
Proof.
  intros Hh. unfold serve, handlers, serve_handler. rewrite Hh.
  unfold mbind, M_bind, bind.
  destruct (checks isEmail e) as [|c cs] eqn:Hcs.
  - assert (validated e = false) as -> by (by destruct e).
    simpl. unfold mbind, M_bind, bind.
    destruct (verrors req); by destruct (h req w) as [[[]|]].
  - assert (validated e = true) as -> by (by destruct e).
    rewrite run_validated.
    destruct (verrors (run_checks (c :: cs) req)); [|reflexivity].
    simpl. unfold mbind, M_bind, bind.
    by destruct (h _ w) as [[[]|]].
Qed.

(** C8: on a validated route (signup, signin, reset-password), a body that
    fails one of the route's field checks is answered 400 with the list of
    validation errors, and the world is left as it was: no call reaches the
    client, the identity provider included. *)
Theorem validation_fails_fast (sb : Client) (isEmail : string -> bool)
    (development : bool) (now : string) (e : Endpoint) (req : Req) (w : World)
    (c : Check) :
  c ∈ checks isEmail e ->
  passes c (req_body req !! path c) = false ->
  exists errors,
    errors <> []
    /\ serve sb isEmail development now e req w =
         (Resolved (json 400 (validation_body errors)), w)
    /\ calls (snd (serve sb isEmail development now e req w)) = calls w
    /\ validated e = true.
Proof.
  intros Hin Hfail.
  exists (verrors (run_checks (checks isEmail e) req)).
  assert (verrors (run_checks (checks isEmail e) req) <> []) as Hne.
  { rewrite run_checks_errors. intros Hnil.
    apply app_eq_nil in Hnil as [_ Hnil].
    by apply (check_errors_failing _ _ c Hin Hfail). }
  assert (serve sb isEmail development now e req w =
            (Resolved (json 400
               (validation_body (verrors (run_checks (checks isEmail e) req)))), w))
    as Hrun.
  { destruct e; simpl in Hin; try by apply elem_of_nil in Hin.
    all: erewrite serve_run by reflexivity.
    all: by destruct (verrors (run_checks _ req)). }
  split; [exact Hne|]. split; [exact Hrun|]. split; [by rewrite Hrun|].
  destruct e; simpl in Hin; try by apply elem_of_nil in Hin.
  all: reflexivity.
Qed.

Lemma validation_fails_fast_witness :
  exists errors,
    errors <> []
    /\ serve Scenario.client Scenario.has_at false "2024-01-01T00:00:00.000Z" Signup
         (Scenario.post Scenario.malformed_email_body) Scenario.world =
         (Resolved (json 400 (validation_body errors)), Scenario.world)
    /\ calls (snd (serve Scenario.client Scenario.has_at false
                     "2024-01-01T00:00:00.000Z" Signup
                     (Scenario.post Scenario.malformed_email_body) Scenario.world)) =
         calls Scenario.world
    /\ validated Signup = true.
Proof.
  apply (validation_fails_fast Scenario.client Scenario.has_at false
           "2024-01-01T00:00:00.000Z" Signup
           (Scenario.post Scenario.malformed_email_body) Scenario.world
           (mkCheck "email" "Please include a valid email"
              (isEmail_field Scenario.has_at))).
  - apply list_elem_of_here.
  - reflexivity.
Defined.

(** The failures the specification lists, on the signup route: a malformed
    address, a short password, a missing name, a user type outside
    CUSTOMER and HUSTLER.  Each is a failing check of the route. *)
Lemma signup_field_failures (isEmail : string -> bool) (b : gmap string Field) :
  isEmail (toString (b !! "email")) = false
  \/ (String.length (toString (b !! "password")) < 6)%nat
  \/ b !! "firstName" = None
  \/ b !! "lastName" = None
  \/ (toString (b !! "userType") <> "CUSTOMER"
      /\ toString (b !! "userType") <> "HUSTLER") ->
  exists c, c ∈ checks isEmail Signup /\ passes c (b !! path c) = false.
Proof.
  intros [H|[H|[H|[H|[H1 H2]]]]].
  - exists (mkCheck "email" "Please include a valid email" (isEmail_field isEmail)).
    split; [apply list_elem_of_here | exact H].
  - exists (mkCheck "password" "Please enter a password with 6 or more characters"
              (isLength_min 6)).
    split; [simpl; set_solver|]. simpl. unfold isLength_min.
    apply Nat.leb_gt. exact H.
  - exists (mkCheck "firstName" "First name is required" not_isEmpty).
    split; [simpl; set_solver|]. simpl. by rewrite H.
  - exists (mkCheck "lastName" "Last name is required" not_isEmpty).
    split; [simpl; set_solver|]. simpl. by rewrite H.
  - exists (mkCheck "userType" "User type is required" (isIn ["CUSTOMER"; "HUSTLER"])).
    split; [simpl; set_solver|]. simpl. unfold isIn, includes. simpl.
    apply String.eqb_neq in H1, H2. by rewrite H1, H2.
Qed.

(** On the signin route a short password is no validation failure (the
    route only asks that the field be present): the request reaches the
    provider. *)
Example signin_short_password_reaches_provider :
  calls (snd (serve Scenario.client Scenario.has_at false "2024-01-01T00:00:00.000Z"
                Signin (Scenario.post Scenario.signin_short_body) Scenario.world)) =
    [CSignIn (Some "eve@example.org") (Some "abc")].
Proof. reflexivity. Qed.

(** ** The service never throws *)

(** Closes a goal [exists r w', (Resolved x, y) = (Resolved r, w') /\ ...]
    on a failed result. *)
Ltac settle_failed :=
  eexists _, _; split; [reflexivity|]; split;
  [right; eexists; reflexivity | intros H; discriminate H].

Lemma signUp_settled (sb : Client) (em pw : string) (ud : UserData) (w : World) :
  exists r w', signUp sb em pw ud w = (Resolved r, w')
    /\ settled r
    /\ (success r = true -> exists u s, data r = Some (mkAuthData (Some u) s)).
Proof.
  unfold signUp, try_catch, mbind, M_bind, bind, await_write.
  destruct (auth_signUp sb _ (db w)) as [[resp|e] d1]; [|settle_failed].
  destruct (ar_error resp); [settle_failed|].
  destruct (ar_user resp) as [u|] eqn:Hu; [|settle_failed].
  cbn. destruct (insert_profile sb _ d1) as [[ins|e] d2]; [|settle_failed].
  destruct (pl_error ins); [settle_failed|].
  eexists _, _. split; [reflexivity|]. split; [by left|].
  intros _. by eexists _, _.
Qed.

Lemma signIn_settled (sb : Client) (em pw : option string) (w : World) :
  exists r w', signIn sb em pw w = (Resolved r, w')
    /\ settled r /\ (success r = true -> is_Some (data r)).
Proof.
  unfold signIn, try_catch, mbind, M_bind, bind, await_read.
  destruct (auth_signIn sb em pw (db w)) as [resp|e]; [|settle_failed].
  destruct (ar_error resp); [settle_failed|].
  eexists _, _. split; [reflexivity|]. split; [by left|]. by eexists.
Qed.

Lemma signOut_settled (sb : Client) (w : World) :
  exists r w', signOut sb w = (Resolved r, w')
    /\ settled r /\ (success r = true -> data r = None).
Proof.
  unfold signOut, try_catch, mbind, M_bind, bind, await_read.
  destruct (auth_signOut sb (db w)) as [resp|e]; [|settle_failed].
  destruct (pl_error resp); [settle_failed|].
  eexists _, _. split; [reflexivity|]. by split; [left|].
Qed.

Lemma getSession_settled (sb : Client) (w : World) :
  exists r w', getSession sb w = (Resolved r, w')
    /\ settled r /\ (success r = true -> is_Some (data r)).
Proof.
  unfold getSession, try_catch, mbind, M_bind, bind, await_read.
  destruct (auth_getSession sb (db w)) as [resp|e]; [|settle_failed].
  destruct (ss_data resp); [|settle_failed].
  destruct (ss_error resp); [settle_failed|].
  eexists _, _. split; [reflexivity|]. split; [by left|]. by eexists.
Qed.

Lemma getUser_settled (sb : Client) (w : World) :
  exists r w', getUser sb w = (Resolved r, w')
    /\ settled r /\ (success r = true -> is_Some (data r)).
Proof.
  unfold getUser, try_catch, mbind, M_bind, bind, await_read.
  destruct (auth_getUser sb None (db w)) as [resp|e]; [|settle_failed].
  destruct (gu_data resp); [|settle_failed].
  destruct (gu_error resp); [settle_failed|].
  eexists _, _. split; [reflexivity|]. split; [by left|]. by eexists.
Qed.

Lemma resetPassword_settled (sb : Client) (em : option string) (w : World) :
  exists r w', resetPassword sb em w = (Resolved r, w')
    /\ settled r /\ (success r = true -> True).
Proof.
  unfold resetPassword, try_catch, mbind, M_bind, bind, await_read.
  destruct (auth_resetPassword sb em (db w)) as [resp|e]; [|settle_failed].
  destruct (pl_error resp); [settle_failed|].
  eexists _, _. split; [reflexivity|]. by split; [left|].
Qed.

(** ** The envelope *)

(** Closes [exists r w', (Resolved (Respond x), y) = ... /\ shaped e r] on a
    response whose status and fields are known. *)
Ltac shape_ok :=
  eexists _, _; split; [reflexivity|];
  unfold shaped; simpl;
  split; [reflexivity|]; split;
  [ intros Hs; first [ lia | repeat split; intros; first [done | by eauto] ]
  | intros Hs; first [ lia | left; by eauto ] ].

Lemma signup_handler_shaped (sb : Client) (development : bool) (req : Req)
    (w : World) :
  exists r w', signup_handler sb development req w = (Resolved (Respond r), w')
    /\ shaped Signup r.
Proof.
  unfold signup_handler, try_catch.
  destruct (truthy_field (req_body req !! "email")) as [em|]; [|shape_ok].
  destruct (truthy_field (req_body req !! "password")) as [pw|]; [|shape_ok].
  destruct (truthy_field (req_body req !! "firstName")) as [fn|]; [|shape_ok].
  destruct (truthy_field (req_body req !! "lastName")) as [ln|]; [|shape_ok].
  destruct (truthy_field (req_body req !! "userType")) as [ut|]; [|shape_ok].
  unfold mbind, M_bind, bind.
  destruct (signUp_settled sb em pw (mkUserData fn ln ut) w)
    as (r & w' & -> & [(Hok & He & Hm & Hd)|[m ->]] & Hdata).
  - rewrite Hok. destruct (Hdata Hok) as (u & s & ->). cbn. shape_ok.
  - cbn. shape_ok.
Qed.

Lemma signin_handler_shaped (sb : Client) (req : Req) (w : World) :
  exists r w', signin_handler sb req w = (Resolved (Respond r), w')
    /\ shaped Signin r.
Proof.
  unfold signin_handler, try_catch, mbind, M_bind, bind.
  destruct (signIn_settled sb (field_str (req_body req !! "email"))
              (field_str (req_body req !! "password")) w)
    as (r & w' & -> & [(Hok & He & Hm & Hd)|[m ->]] & Hdata).
  - rewrite Hok. destruct (Hdata Hok) as (d & ->). cbn. shape_ok.
  - cbn. shape_ok.
Qed.

Lemma signout_handler_shaped (sb : Client) (req : Req) (w : World) :
  exists r w', signout_handler sb req w = (Resolved (Respond r), w')
    /\ shaped Signout r.
Proof.
  unfold signout_handler, try_catch, mbind, M_bind, bind.
  destruct (signOut_settled sb w)
    as (r & w' & -> & [(Hok & He & Hm & Hd)|[m ->]] & Hdata).
  - rewrite Hok. cbn. shape_ok.
  - cbn. shape_ok.
Qed.

Lemma session_handler_shaped (sb : Client) (req : Req) (w : World) :
  exists r w', session_handler sb req w = (Resolved (Respond r), w')
    /\ shaped GetSession r.
Proof.
  unfold session_handler, try_catch, mbind, M_bind, bind.
  destruct (getSession_settled sb w)
    as (r & w' & -> & [(Hok & He & Hm & Hd)|[m ->]] & Hdata).
  - rewrite Hok. destruct (Hdata Hok) as (d & ->). cbn. shape_ok.
  - cbn. shape_ok.
Qed.

Lemma user_handler_shaped (sb : Client) (req : Req) (w : World) :
  exists r w', user_handler sb req w = (Resolved (Respond r), w')
    /\ shaped GetUser r.
Proof.
  unfold user_handler, try_catch, mbind, M_bind, bind.
  destruct (getUser_settled sb w)
    as (r & w' & -> & [(Hok & He & Hm & Hd)|[m ->]] & Hdata).
  - rewrite Hok. destruct (Hdata Hok) as (d & ->). cbn. shape_ok.
  - cbn. shape_ok.
Qed.

Lemma reset_handler_shaped (sb : Client) (req : Req) (w : World) :
  exists r w', reset_handler sb req w = (Resolved (Respond r), w')
    /\ shaped ResetPassword r.
Proof.
  unfold reset_handler, try_catch, mbind, M_bind, bind.
  destruct (resetPassword_settled sb (field_str (req_body req !! "email")) w)
    as (r & w' & -> & [(Hok & He & Hm & Hd)|[m ->]] & Hdata).
  - rewrite Hok. cbn. shape_ok.
  - cbn. shape_ok.
Qed.

(** Every handler answers, with a body of the route's shape. *)
Lemma handler_shaped (sb : Client) (development : bool) (now : string)
    (e : Endpoint) (h : Middleware) (req : Req) (w : World) :
  handler sb development now e = Some h ->
  exists r w', h req w = (Resolved (Respond r), w') /\ shaped e r.
Proof.
  destruct e; simpl; intros [= <-].
  - unfold health. shape_ok.
  - apply signup_handler_shaped.
  - apply signin_handler_shaped.
  - apply signout_handler_shaped.
  - apply session_handler_shaped.
  - apply user_handler_shaped.
  - apply reset_handler_shaped.
Qed.

(** C6, as stated, fails: the 400 answer of [validate] has no [error]
    field (it carries the list [errors]), so it is neither the failure nor
    the success envelope. *)
Lemma validate_body_outside_envelope :
  fst (serve Scenario.client Scenario.has_at false "2024-01-01T00:00:00.000Z" Signup
         (Scenario.post Scenario.malformed_email_body) Scenario.world) =
    Resolved (json 400 (validation_body
      [mkVError "email" "Please include a valid email" (Some (FStr "eve.example.org"))]))
  /\ ~ Spec.failure_envelope (validation_body
        [mkVError "email" "Please include a valid email" (Some (FStr "eve.example.org"))])
  /\ ~ Spec.success_envelope (validation_body
        [mkVError "email" "Please include a valid email" (Some (FStr "eve.example.org"))]).
Proof.
  split; [reflexivity|]. split.
  - intros [_ [m Hm]]. discriminate Hm.
  - intros [Hs _]. discriminate Hs.
Qed.

(** Nor is every success the success envelope: signing out answers
    [{ success: true, message }] without [data]. *)
Example signout_body_without_data :
  fst (serve Scenario.client Scenario.has_at false "2024-01-01T00:00:00.000Z" Signout
         (Scenario.post ∅) Scenario.world) =
    Resolved (json 200 (JObj [("success", JBool true);
                              ("message", JStr "User logged out successfully")]))
  /\ ~ Spec.success_envelope (JObj [("success", JBool true);
                                    ("message", JStr "User logged out successfully")]).
Proof.
  split; [reflexivity|]. intros [_ [d Hd]]. discriminate Hd.
Qed.

(** C6, amended: every route answers, and every body has a boolean
    [success] that is true exactly when the status is below 400.  A failure
    carries a string [error], except the 400 of [validate] on the validated
    routes, which carries a non-empty array [errors] and no [error].  A
    success carries [data] on signup, signin, session and user and not on
    the other routes, and carries [message] on health, signup, signin,
    signout and reset-password. *)
Theorem envelope_shape (sb : Client) (isEmail : string -> bool)
    (development : bool) (now : string) (e : Endpoint) (req : Req) (w : World) :
  exists r w',
    serve sb isEmail development now e req w = (Resolved r, w') /\ shaped e r.
Proof.
  destruct (handler sb development now e) as [h|] eqn:Hh.
  - rewrite (serve_run sb isEmail development now e req w h Hh).
    pose proof (handler_shaped sb development now e h
                  (run_checks (checks isEmail e) req) w Hh) as (r & w' & Hrun & Hsh).
    assert (serve_handler h (run_checks (checks isEmail e) req) w = (Resolved r, w'))
      as Hserve by (unfold serve_handler; by rewrite Hrun).
    destruct (verrors (run_checks (checks isEmail e) req)) as [|v errors];
      [by eexists _, _|].
    destruct (validated e) eqn:Hv; [|by eexists _, _].
    eexists _, _. split; [reflexivity|].
    unfold shaped. simpl. split; [reflexivity|]. split; [lia|].
    intros _. right. split; [reflexivity|]. split; [exact Hv|].
    split; [reflexivity|]. eexists. split; [|reflexivity]. discriminate.
  - destruct e; try discriminate Hh.
    exists notFound, w. split; [reflexivity|].
    unfold shaped. simpl. split; [reflexivity|]. split; [lia|].
    intros _. left. by eexists.
Qed.

(** ** Signup is not atomic *)

Lemma handle_new_user_inserts (NEW : AuthUser) (d d2 : DB) :
  handle_new_user NEW d = Some d2 ->
  auth_users d2 = auth_users d
  /\ trigger_installed d2 = trigger_installed d
  /\ is_Some (profiles d2 !! au_id NEW).
Proof.
  unfold handle_new_user.
  destruct (coalesce_user_type (au_user_type NEW)) as [ut|]; [|discriminate].
  destruct (au_first_name NEW) as [fn|]; [|discriminate].
  destruct (au_last_name NEW) as [ln|]; [|discriminate].
  destruct (profiles d !! au_id NEW) as [row|] eqn:Hrow.
  - intros [= <-]. by rewrite Hrow.
  - destruct (email_taken (au_email NEW) (profiles d)); [discriminate|].
    intros [= <-]. simpl. by rewrite lookup_insert_eq.
Qed.

(** After a sign-up the provider accepted, the account is in [auth.users],
    and its profile row is in [profiles] when the trigger is installed. *)
Lemma pg_signUp_created (P : Provider) (r : SignUpReq) (d d1 : DB) (u : User)
    (s : option Session) :
  pg_signUp P r d = (Resolved (mkAuthResp (Some u) s None), d1) ->
  is_Some (auth_users d1 !! id u)
  /\ (trigger_installed d = true -> is_Some (profiles d1 !! id u)).
Proof.
  unfold pg_signUp.
  destruct (decide_signUp P r) as [u0 s0|e|e]; try discriminate.
  destruct (auth_users d !! id u0) eqn:Hfresh; [discriminate|].
  destruct (trigger_installed d) eqn:Htrig.
  - destruct (handle_new_user _ _) as [d2|] eqn:Hnew; [|discriminate].
    intros [= -> -> ->].
    apply handle_new_user_inserts in Hnew as (Hau & _ & Hp). simpl in *.
    rewrite Hau. by rewrite lookup_insert_eq.
  - intros [= -> -> <-]. simpl. by rewrite lookup_insert_eq.
Qed.

(** Inserting a profile never touches [auth.users]. *)
Lemma pg_insert_auth_users (P : Provider) (row : ProfileInput) (d : DB) :
  auth_users (snd (pg_insert P row d)) = auth_users d.
Proof.
  unfold pg_insert.
  destruct (insert_fault P row) as [[e|e]|]; try reflexivity.
  destruct (role_of_text (pi_user_type row)); [|reflexivity].
  destruct (profiles d !! pi_id row); [reflexivity|].
  destruct (email_taken _ _); [reflexivity|].
  by destruct (auth_users d !! pi_id row).
Qed.

(** With the row already there, the insert fails. *)
Lemma pg_insert_conflict (P : Provider) (row : ProfileInput) (d : DB) :
  is_Some (profiles d !! pi_id row) ->
  is_Some (failure_of (fst (pg_insert P row d))).
Proof.
  intros [p Hp]. unfold pg_insert. rewrite Hp.
  destruct (insert_fault P row) as [[e|e]|]; [by eexists..|].
  destruct (role_of_text (pi_user_type row)); by eexists.
Qed.

(** What [signUp] does once the provider has created the account: it
    inserts the profile row, and a failed insert ends the call with a
    failure and nothing else. *)
Lemma signUp_after_create (sb : Client) (em pw : string) (ud : UserData)
    (w : World) (u : User) (s : option Session) (d1 : DB) :
  let r := mkSignUpReq em pw (firstName ud) (lastName ud) (userType ud) in
  let row := mkProfileInput (id u) em (firstName ud) (lastName ud) (userType ud) in
  auth_signUp sb r (db w) = (Resolved (mkAuthResp (Some u) s None), d1) ->
  signUp sb em pw ud w =
    (Resolved
       match failure_of (fst (insert_profile sb row d1)) with
       | Some e => failed e "Failed to sign up user"
       | None => ok (Some (mkAuthData (Some u) s))
       end,
     mkWorld (snd (insert_profile sb row d1))
       (calls w ++ [CSignUp r; CInsertProfile row])).
Proof.
  intros r row Hcreate.
  unfold signUp, try_catch, mbind, M_bind, bind, await_write.
  fold r. rewrite Hcreate. cbn. fold row.
  destruct (insert_profile sb row d1) as [[ins|e] d2]; cbn.
  - destruct (pl_error ins); cbn; by rewrite <- app_assoc.
  - by rewrite <- app_assoc.
Qed.

(** C9: [signUp] is not atomic.  Once the provider has created the account,
    [signUp] always goes on to insert the profile row (the two calls are the
    whole of its log); and whenever that insert fails, [signUp] returns
    [{ success: false, error: <message> }] while the account created in the
    first step is still in [auth.users]. *)
Theorem signUp_not_atomic (P : Provider) (em pw : string) (ud : UserData)
    (w : World) (u : User) (s : option Session) (d1 : DB) :
  let r := mkSignUpReq em pw (firstName ud) (lastName ud) (userType ud) in
  let row := mkProfileInput (id u) em (firstName ud) (lastName ud) (userType ud) in
  auth_signUp (pg_client P) r (db w) = (Resolved (mkAuthResp (Some u) s None), d1) ->
  calls (snd (signUp (pg_client P) em pw ud w)) =
    (calls w ++ [CSignUp r; CInsertProfile row])%list
  /\ forall e,
       failure_of (fst (insert_profile (pg_client P) row d1)) = Some e ->
       fst (signUp (pg_client P) em pw ud w) =
         Resolved (mkResult false None
                     (Some (or_else (err_message e) "Failed to sign up user"))
                     None None)
       /\ is_Some (auth_users (db (snd (signUp (pg_client P) em pw ud w))) !! id u).
Proof.
  intros r row Hcreate.
  rewrite (signUp_after_create (pg_client P) em pw ud w u s d1 Hcreate).
  fold row. split; [reflexivity|].
  intros e Hfail. rewrite Hfail. split; [reflexivity|].
  simpl. rewrite pg_insert_auth_users.
  by apply (pg_signUp_created P r (db w) d1 u s).
Qed.

(** The account [u9] is created, the trigger inserts its profile row, and
    the insert of [signUp] then violates the primary key. *)
Lemma signUp_not_atomic_witness :
  calls (snd (signUp Scenario.client "eve@example.org" "secret1"
                (mkUserData "Eve" "N" "CUSTOMER") Scenario.world)) =
    [CSignUp (mkSignUpReq "eve@example.org" "secret1" "Eve" "N" "CUSTOMER");
     CInsertProfile (mkProfileInput "u9" "eve@example.org" "Eve" "N" "CUSTOMER")]
  /\ fst (signUp Scenario.client "eve@example.org" "secret1"
            (mkUserData "Eve" "N" "CUSTOMER") Scenario.world) =
       Resolved (mkResult false None
                   (Some "duplicate key value violates unique constraint profiles_pkey")
                   None None)
  /\ is_Some (auth_users (db (snd (signUp Scenario.client "eve@example.org" "secret1"
                                     (mkUserData "Eve" "N" "CUSTOMER")
                                     Scenario.world))) !! "u9").
Proof.
  pose proof (signUp_not_atomic Scenario.provider "eve@example.org" "secret1"
                (mkUserData "Eve" "N" "CUSTOMER") Scenario.world Scenario.u9 None
                (snd (pg_signUp Scenario.provider
                        (mkSignUpReq "eve@example.org" "secret1" "Eve" "N" "CUSTOMER")
                        Scenario.database))
                eq_refl) as [Hcalls Hfail].
  split; [exact Hcalls|].
  exact (Hfail duplicate_pkey eq_refl).
Defined.


(** * Further properties of the code *)

(** ** The middleware as a gate *)

(** [requireAuth] lets a request through exactly when the header has the
    scheme prefix and the provider resolves the token to a user without an
    error; the request goes on with that user as [req.user] and is otherwise
    unchanged. *)
Theorem requireAuth_passes_iff (sb : Client) (req req' : Req) (w : World) :
  fst (requireAuth sb req w) = Resolved (Next req') <->
  exists h u,
    authorization req = Some h
    /\ startsWith h "Bearer " = true
    /\ auth_getUser sb (split " " h !! 1%nat) (db w) =
         Resolved (mkGetUserResp (Some (Some u)) None)
    /\ req' = mkReq (authorization req) (Some u) (req_body req) (verrors req).
Proof.
  split.
  - destruct (authorization req) as [h|] eqn:Hh.
    2: { rewrite requireAuth_no_bearer_run by (by rewrite Hh). discriminate. }
    destruct (startsWith h "Bearer ") eqn:Hp.
    2: { rewrite requireAuth_no_bearer_run by (by rewrite Hh). discriminate. }
    rewrite (requireAuth_bearer_run sb req w h Hh Hp). cbv zeta.
    destruct (auth_getUser sb _ (db w)) as [[d e]|] eqn:Hcall; [|discriminate].
    simpl. destruct d as [[u|]|]; destruct e; try discriminate.
    simpl. intros [= <-]. exists h, u. repeat split; try done.
    unfold set_user. by rewrite Hh.
  - intros (h & u & Hh & Hp & Hcall & ->).
    rewrite (requireAuth_bearer_run sb req w h Hh Hp). cbv zeta.
    rewrite Hcall. simpl. unfold set_user. by rewrite Hh.
Qed.

(** [requireRole] lets a request through exactly when [req.user] is set,
    the lookup resolves to a profile without an error, and the allow-list is
    empty or contains the profile's role; the request goes on with the same
    user, its [role] replaced by the profile's. *)
Theorem requireRole_passes_iff (sb : Client) (roles : list string)
    (req req' : Req) (w : World) :
  fst (requireRole sb roles req w) = Resolved (Next req') <->
  exists u user_type,
    user req = Some u
    /\ select_single sb (id u) (db w) =
         Resolved (mkSingleResp (Some user_type) None)
    /\ (roles = [] \/ user_type ∈ roles)
    /\ req' = mkReq (authorization req)
                (Some (mkUser (id u) (email u) (email_confirmed_at u) (Some user_type)))
                (req_body req) (verrors req).
Proof.
  split.
  - destruct (user req) as [u|] eqn:Hu.
    2: { unfold requireRole, try_catch. rewrite Hu. discriminate. }
    rewrite (requireRole_user_run sb roles req w u Hu). cbv zeta.
    destruct (select_single sb (id u) (db w)) as [[d e]|] eqn:Hcall; [|discriminate].
    simpl. destruct e, d as [ut|]; try discriminate.
    destruct (includes roles ut) eqn:Hin.
    + rewrite andb_false_r. simpl. intros [= <-]. exists u, ut.
      repeat split; try done. right. by apply includes_elem_of.
    + rewrite andb_true_r. destruct roles as [|r roles]; simpl; [|discriminate].
      intros [= <-]. exists u, ut. repeat split; by auto.
  - intros (u & ut & Hu & Hcall & Hallowed & ->).
    rewrite (requireRole_user_run sb roles req w u Hu). cbv zeta.
    rewrite Hcall. simpl.
    destruct Hallowed as [->|Hin]; [reflexivity|].
    apply includes_elem_of in Hin. rewrite Hin. by rewrite andb_false_r.
Qed.

(** Neither middleware ever throws, writes to the database, or calls the
    client more than once: there is no retry. *)
Theorem middleware_single_call (sb : Client) (roles : list string) (req : Req)
    (w : World) :
  (exists s w',
     requireAuth sb req w = (Resolved s, w') /\ db w' = db w
     /\ (calls w' = calls w
         \/ exists t, calls w' = (calls w ++ [CGetUser (Some t)])%list))
  /\ (exists s w',
        requireRole sb roles req w = (Resolved s, w') /\ db w' = db w
        /\ (calls w' = calls w
            \/ exists uid, user req = Some uid
                 /\ calls w' = (calls w ++ [CSelectProfile (id uid)])%list)).
Proof.
  split.
  - destruct (authorization req) as [h|] eqn:Hh.
    2: { rewrite requireAuth_no_bearer_run by (by rewrite Hh).
         eexists _, _. split; [reflexivity|]. split; [reflexivity|]. by left. }
    destruct (startsWith h "Bearer ") eqn:Hp.
    2: { rewrite requireAuth_no_bearer_run by (by rewrite Hh).
         eexists _, _. split; [reflexivity|]. split; [reflexivity|]. by left. }
    rewrite (requireAuth_bearer_run sb req w h Hh Hp). cbv zeta.
    destruct (startsWith_bearer h Hp) as [rest ->]. rewrite bearer_token.
    destruct (auth_getUser sb _ (db w)) as [[[[u|]|] [e|]]|];
      simpl; eexists _, _; (split; [reflexivity|]); (split; [reflexivity|]);
      right; by eexists.
  - destruct (user req) as [u|] eqn:Hu.
    2: { unfold requireRole, try_catch. rewrite Hu.
         eexists _, _. split; [reflexivity|]. split; [reflexivity|]. by left. }
    rewrite (requireRole_user_run sb roles req w u Hu). cbv zeta.
    destruct (select_single sb (id u) (db w)) as [[[ut|] [e|]]|]; simpl;
      try destruct (negb (length roles =? 0)%nat && negb (includes roles ut));
      eexists _, _; (split; [reflexivity|]); (split; [reflexivity|]);
      right; by eexists.
Qed.

(** [requireAuth] followed by [requireRole]: the profile store is asked only
    after the provider has verified the token, and about the identifier of
    the user the provider returned; a request gets through only with that
    user, the role of that user's profile, and the two calls in that order.
    What the request carried in [req.user] plays no part. *)
Theorem protect_verified_user_only (sb : Client) (roles : list string)
    (req : Req) (w : World) :
  exists s w' new,
    run_chain (protect sb roles) req w = (Resolved s, w')
    /\ calls w' = (calls w ++ new)%list
    /\ (forall uid, CSelectProfile uid ∈ new ->
        exists h u,
          authorization req = Some h /\ startsWith h "Bearer " = true
          /\ auth_getUser sb (split " " h !! 1%nat) (db w) =
               Resolved (mkGetUserResp (Some (Some u)) None)
          /\ uid = id u)
    /\ (forall req', s = Next req' ->
        exists h u user_type,
          authorization req = Some h /\ startsWith h "Bearer " = true
          /\ auth_getUser sb (split " " h !! 1%nat) (db w) =
               Resolved (mkGetUserResp (Some (Some u)) None)
          /\ select_single sb (id u) (db w) =
               Resolved (mkSingleResp (Some user_type) None)
          /\ (roles = [] \/ user_type ∈ roles)
          /\ user req' =
               Some (mkUser (id u) (email u) (email_confirmed_at u) (Some user_type))
          /\ new = [CGetUser (split " " h !! 1%nat); CSelectProfile (id u)]).
Proof.
  unfold protect. simpl. unfold mbind, M_bind, bind.
  destruct (authorization req) as [h|] eqn:Hh.
  2: { rewrite requireAuth_no_bearer_run by (by rewrite Hh).
       eexists _, _, []. split; [reflexivity|]. split; [by rewrite app_nil_r|].
       split; [by intros uid Hin%elem_of_nil | discriminate]. }
  destruct (startsWith h "Bearer ") eqn:Hp.
  2: { rewrite requireAuth_no_bearer_run by (by rewrite Hh).
       eexists _, _, []. split; [reflexivity|]. split; [by rewrite app_nil_r|].
       split; [by intros uid Hin%elem_of_nil | discriminate]. }
  rewrite (requireAuth_bearer_run sb req w h Hh Hp). cbv zeta.
  set (token := split " " h !! 1%nat).
  destruct (auth_getUser sb token (db w)) as [[d e]|] eqn:Hcall.
  2: { eexists _, _, [CGetUser token]. split; [reflexivity|]. split; [reflexivity|].
       split; [|discriminate].
       intros uid Hin%list_elem_of_singleton. discriminate Hin. }
  simpl. destruct d as [[u|]|], e;
    try (eexists _, _, [CGetUser token]; split; [reflexivity|];
         split; [reflexivity|]; split; [|discriminate];
         intros uid Hin%list_elem_of_singleton; discriminate Hin).
  rewrite (requireRole_user_run sb roles (set_user u req) _ u eq_refl). cbv zeta.
  cbn [db calls].
  assert (forall uid, CSelectProfile uid ∈ [CGetUser token; CSelectProfile (id u)] ->
          exists h0 u0,
            Some h = Some h0 /\ startsWith h0 "Bearer " = true
            /\ auth_getUser sb (split " " h0 !! 1%nat) (db w) =
                 Resolved (mkGetUserResp (Some (Some u0)) None)
            /\ uid = id u0) as Hstore.
  { intros uid Hin. exists h, u. repeat split; try done.
    apply elem_of_cons in Hin as [Hin|Hin]; [discriminate Hin|].
    apply list_elem_of_singleton in Hin. by injection Hin. }
  destruct (select_single sb (id u) (db w)) as [[ut err]|] eqn:Hsel.
  2: { eexists _, _, [CGetUser token; CSelectProfile (id u)].
       split; [reflexivity|]. split; [by rewrite <- app_assoc|].
       split; [exact Hstore | discriminate]. }
  simpl. destruct err, ut as [ut|];
    try (eexists _, _, [CGetUser token; CSelectProfile (id u)];
         split; [reflexivity|]; split; [by rewrite <- app_assoc|];
         split; [exact Hstore | discriminate]).
  destruct (includes roles ut) eqn:Hin.
  - rewrite andb_false_r.
    eexists _, _, [CGetUser token; CSelectProfile (id u)].
    split; [reflexivity|]. split; [by rewrite <- app_assoc|].
    split; [exact Hstore|].
    intros req' [= <-]. exists h, u, ut. repeat split; try done.
    right. by apply includes_elem_of.
  - rewrite andb_true_r. destruct roles as [|r roles]; simpl.
    + eexists _, _, [CGetUser token; CSelectProfile (id u)].
      split; [reflexivity|]. split; [by rewrite <- app_assoc|].
      split; [exact Hstore|].
      intros req' [= <-]. exists h, u, ut. repeat split; by auto.
    + eexists _, _, [CGetUser token; CSelectProfile (id u)].
      split; [reflexivity|]. split; [by rewrite <- app_assoc|].
      split; [exact Hstore | discriminate].
Qed.

(** A request that arrives with an ADMIN already written into [req.user]
    gets the role of the profile of the token's user. *)
Example protect_ignores_forged_user :
  fst (run_chain (protect Scenario.client []) forged_request Scenario.world) =
    Resolved (Next (mkReq (Some "Bearer abc123")
                      (Some (mkUser "u1" (Some "ada@example.org") None (Some "HUSTLER")))
                      ∅ []))
  /\ fst (run_chain (protect Scenario.client ["ADMIN"]) forged_request Scenario.world) =
       Resolved (Respond (json 403 (failure "Access denied. Insufficient permissions."))).
Proof. split; reflexivity. Qed.

(** The token handed to the provider is a string without a space that
    follows the scheme prefix in the header; for the bare prefix it is the
    empty string. *)
Theorem requireAuth_token_has_no_space (sb : Client) (req : Req) (w : World)
    (h : string) :
  authorization req = Some h ->
  startsWith h "Bearer " = true ->
  exists token,
    calls (snd (requireAuth sb req w)) = (calls w ++ [CGetUser (Some token)])%list
    /\ contains " " token = false
    /\ startsWith h (String.append "Bearer " token) = true
    /\ (h = "Bearer " -> token = EmptyString).
Proof.
  intros Hh Hp. destruct (startsWith_bearer h Hp) as [rest ->].
  exists (up_to " " rest). split; [|split; [|split]].
  - rewrite (requireAuth_bearer_run sb req w _ Hh Hp). cbv zeta.
    rewrite bearer_token.
    destruct (auth_getUser sb _ (db w)) as [[[[u|]|] [e|]]|]; reflexivity.
  - clear. induction rest as [|c rest IH]; simpl; [done|].
    destruct (Ascii.eqb c " ") eqn:Hc; simpl; [done|]. by rewrite Hc.
  - clear. unfold startsWith. simpl.
    repeat (destruct (ascii_dec _ _); [|done]).
    induction rest as [|c rest IH]; simpl; [done|].
    destruct (Ascii.eqb c " "); simpl; [done|].
    destruct (ascii_dec c c); [exact IH | done].
  - intros Heq. injection Heq as Heq.
    change (rest = EmptyString) in Heq. by subst rest.
Qed.

Lemma requireAuth_token_has_no_space_witness :
  exists token,
    calls (snd (requireAuth Scenario.client (Scenario.request (Some "Bearer abc def"))
                  Scenario.world)) =
      (calls Scenario.world ++ [CGetUser (Some token)])%list
    /\ contains " " token = false
    /\ startsWith "Bearer abc def" (String.append "Bearer " token) = true
    /\ ("Bearer abc def" = "Bearer " -> token = EmptyString).
Proof.
  apply (requireAuth_token_has_no_space Scenario.client
           (Scenario.request (Some "Bearer abc def")) Scenario.world "Bearer abc def");
    reflexivity.
Defined.

(** ** What [errorHandler] discloses *)

(** Outside development the answer of [errorHandler] never carries the
    exception's message; the two token answers never carry it at all; in
    development the default answer carries it exactly when the exception has
    one.  The stack is never sent. *)
Theorem errorHandler_discloses (err : JsError) :
  field "message" (body (errorHandler false err)) = None
  /\ (forall development,
        status (errorHandler development err) = 401 ->
        field "message" (body (errorHandler development err)) = None)
  /\ (status (errorHandler true err) = 500 ->
      field "message" (body (errorHandler true err)) = JStr <$> err_message err)
  /\ (forall development,
        field "stack" (body (errorHandler development err)) = None)
  /\ (forall development,
        status (errorHandler development err) = 401
        <-> (err_name err = Some "JsonWebTokenError"
             \/ err_name err = Some "TokenExpiredError")).
Proof.
  unfold errorHandler. repeat apply conj.
  - by repeat case_bool_decide.
  - intros development. repeat case_bool_decide; simpl; [done..|discriminate].
  - repeat case_bool_decide; simpl; try discriminate.
    intros _. by destruct (err_message err).
  - intros development. repeat case_bool_decide; simpl; try done.
    by destruct development, (err_message err).
  - intros development. split.
    + repeat case_bool_decide; simpl; try discriminate; by auto.
    + intros [H|H]; repeat case_bool_decide; simpl; congruence.
Qed.

(** ** The service: no throw, no retry *)

Lemma or_else_nonempty (a : option string) (b : string) :
  b <> EmptyString -> or_else a b <> EmptyString.
Proof.
  intros Hb. unfold or_else. destruct a as [[|c s]|]; simpl; done.
Qed.

Lemma failed_clean {D W} (e : JsError) (fallback : string) (w : W) :
  fallback <> EmptyString ->
  clean (D := D) (Resolved (failed e fallback), w).
Proof.
  intros Hf. eexists _, _. split; [reflexivity|]. right.
  repeat split. eexists. split; [reflexivity|]. by apply or_else_nonempty.
Qed.

Lemma ok_clean {D W} (d : option D) (w : W) :
  clean (Resolved (ok d), w).
Proof. eexists _, _. split; [reflexivity|]. by left. Qed.

Ltac clean_failed := apply failed_clean; discriminate.

(** The world after each of the five methods that make one reading call. *)
Lemma signIn_world (sb : Client) (em pw : option string) (w : World) :
  snd (signIn sb em pw w) = mkWorld (db w) (calls w ++ [CSignIn em pw]).
Proof.
  unfold signIn, try_catch, mbind, M_bind, bind, await_read.
  destruct (auth_signIn sb em pw (db w)) as [resp|e]; [|reflexivity].
  by destruct (ar_error resp).
Qed.

Lemma signOut_world (sb : Client) (w : World) :
  snd (signOut sb w) = mkWorld (db w) (calls w ++ [CSignOut]).
Proof.
  unfold signOut, try_catch, mbind, M_bind, bind, await_read.
  destruct (auth_signOut sb (db w)) as [resp|e]; [|reflexivity].
  by destruct (pl_error resp).
Qed.

Lemma getSession_world (sb : Client) (w : World) :
  snd (getSession sb w) = mkWorld (db w) (calls w ++ [CGetSession]).
Proof.
  unfold getSession, try_catch, mbind, M_bind, bind, await_read.
  destruct (auth_getSession sb (db w)) as [resp|e]; [|reflexivity].
  by destruct (ss_data resp), (ss_error resp).
Qed.

Lemma getUser_world (sb : Client) (w : World) :
  snd (getUser sb w) = mkWorld (db w) (calls w ++ [CGetUser None]).
Proof.
  unfold getUser, try_catch, mbind, M_bind, bind, await_read.
  destruct (auth_getUser sb None (db w)) as [resp|e]; [|reflexivity].
  by destruct (gu_data resp), (gu_error resp).
Qed.

Lemma resetPassword_world (sb : Client) (em : option string) (w : World) :
  snd (resetPassword sb em w) = mkWorld (db w) (calls w ++ [CResetPassword em]).
Proof.
  unfold resetPassword, try_catch, mbind, M_bind, bind, await_read.
  destruct (auth_resetPassword sb em (db w)) as [resp|e]; [|reflexivity].
  by destruct (pl_error resp).
Qed.

(** The calls of [signUp]: the sign-up, then the insert exactly when the
    sign-up resolved with a user and without an error. *)
Lemma signUp_calls (sb : Client) (em pw : string) (ud : UserData) (w : World) :
  let r := mkSignUpReq em pw (firstName ud) (lastName ud) (userType ud) in
  calls (snd (signUp sb em pw ud w)) =
    (calls w ++
     CSignUp r ::
     match fst (auth_signUp sb r (db w)) with
     | Resolved (mkAuthResp (Some u) _ None) =>
         [CInsertProfile (mkProfileInput (id u) em (firstName ud) (lastName ud)
                            (userType ud))]
     | _ => []
     end)%list.
Proof.
  intros r. unfold signUp, try_catch, mbind, M_bind, bind, await_write. fold r.
  destruct (auth_signUp sb r (db w)) as [[[u s e]|e] d1]; [|reflexivity].
  simpl. destruct e, u as [u|]; try reflexivity.
  cbn. destruct (insert_profile sb _ d1) as [[ins|e] d2]; cbn.
  - destruct (pl_error ins); cbn; by rewrite <- app_assoc.
  - by rewrite <- app_assoc.
Qed.

(** Every method of the service resolves: it never throws, and what it
    returns is a success without an error or a failure whose message is not
    empty. *)
Theorem service_never_throws (sb : Client) (w : World) :
  (forall em pw ud, clean (signUp sb em pw ud w))
  /\ (forall em pw, clean (signIn sb em pw w))
  /\ clean (signOut sb w)
  /\ clean (getSession sb w)
  /\ clean (getUser sb w)
  /\ (forall em, clean (resetPassword sb em w)).
Proof.
  repeat apply conj.
  - intros em pw ud.
    unfold signUp, try_catch, mbind, M_bind, bind, await_write.
    destruct (auth_signUp sb _ (db w)) as [[resp|e] d1]; [|clean_failed].
    destruct (ar_error resp); [clean_failed|].
    destruct (ar_user resp) as [u|]; [|clean_failed].
    cbn. destruct (insert_profile sb _ d1) as [[ins|e] d2]; [|clean_failed].
    destruct (pl_error ins); [clean_failed | apply ok_clean].
  - intros em pw.
    unfold signIn, try_catch, mbind, M_bind, bind, await_read.
    destruct (auth_signIn sb em pw (db w)) as [resp|e]; [|clean_failed].
    destruct (ar_error resp); [clean_failed | apply ok_clean].
  - unfold signOut, try_catch, mbind, M_bind, bind, await_read.
    destruct (auth_signOut sb (db w)) as [resp|e]; [|clean_failed].
    destruct (pl_error resp); [clean_failed | apply ok_clean].
  - unfold getSession, try_catch, mbind, M_bind, bind, await_read.
    destruct (auth_getSession sb (db w)) as [resp|e]; [|clean_failed].
    destruct (ss_data resp); [|clean_failed].
    destruct (ss_error resp); [clean_failed | apply ok_clean].
  - unfold getUser, try_catch, mbind, M_bind, bind, await_read.
    destruct (auth_getUser sb None (db w)) as [resp|e]; [|clean_failed].
    destruct (gu_data resp); [|clean_failed].
    destruct (gu_error resp); [clean_failed | apply ok_clean].
  - intros em.
    unfold resetPassword, try_catch, mbind, M_bind, bind, await_read.
    destruct (auth_resetPassword sb em (db w)) as [resp|e]; [|clean_failed].
    destruct (pl_error resp); [clean_failed | apply ok_clean].
Qed.

(** No method retries: signing in, signing out, reading the session or the
    user and resetting a password make exactly one call and leave the
    database as it was; signing up makes the sign-up call and at most the
    one insert. *)
Theorem service_makes_no_retry (sb : Client) (w : World) :
  (forall em pw,
     snd (signIn sb em pw w) = mkWorld (db w) (calls w ++ [CSignIn em pw]))
  /\ snd (signOut sb w) = mkWorld (db w) (calls w ++ [CSignOut])
  /\ snd (getSession sb w) = mkWorld (db w) (calls w ++ [CGetSession])
  /\ snd (getUser sb w) = mkWorld (db w) (calls w ++ [CGetUser None])
  /\ (forall em,
        snd (resetPassword sb em w) =
          mkWorld (db w) (calls w ++ [CResetPassword em]))
  /\ (forall em pw ud,
        exists new,
          calls (snd (signUp sb em pw ud w)) = (calls w ++ new)%list
          /\ (new = [CSignUp (mkSignUpReq em pw (firstName ud) (lastName ud)
                                (userType ud))]
              \/ exists uid,
                   new = [CSignUp (mkSignUpReq em pw (firstName ud) (lastName ud)
                                     (userType ud));
                          CInsertProfile (mkProfileInput uid em (firstName ud)
                                            (lastName ud) (userType ud))])).
Proof.
  repeat apply conj.
  - intros em pw. apply signIn_world.
  - apply signOut_world.
  - apply getSession_world.
  - apply getUser_world.
  - intros em. apply resetPassword_world.
  - intros em pw ud. eexists. split; [apply signUp_calls|].
    destruct (fst (auth_signUp sb _ (db w))) as [[[u|] s [e|]]|e]; eauto.
Qed.

(** ** The routes: what validation reports and what it lets through *)

Lemma check_errors_nil (cs : list Check) (b : gmap string Field) :
  check_errors cs b = [] <-> Forall (fun c => passes c (b !! path c) = true) cs.
Proof.
  unfold check_errors. induction cs as [|c cs IH]; simpl.
  - split; [by constructor | done].
  - destruct (passes c (b !! path c)) eqn:Hc; simpl.
    + rewrite IH. split; [by constructor | by inversion 1].
    + split; [done | by inversion 1; congruence].
Qed.

Lemma check_errors_filter (cs : list Check) (b : gmap string Field) :
  check_errors cs b =
    map (fun c => mkVError (path c) (msg c) (b !! path c))
      (List.filter (fails_on b) cs).
Proof.
  unfold check_errors, fails_on. induction cs as [|c cs IH]; simpl; [done|].
  destruct (passes c (b !! path c)); simpl; by rewrite IH.
Qed.

Lemma serve_handler_world (h : Middleware) (req : Req) (w : World) :
  snd (serve_handler h req w) = snd (h req w).
Proof. unfold serve_handler. by destruct (h req w) as [[[]|]]. Qed.

(** The 400 of a validated route lists every failing check of the route,
    in the order of the chains, each with the chain's field, its message and
    the value it was given; no error is left out after the first. *)
Theorem validation_lists_every_failure (sb : Client) (isEmail : string -> bool)
    (development : bool) (now : string) (e : Endpoint) (req : Req) (w : World) :
  verrors req = [] ->
  List.filter (fails_on (req_body req)) (checks isEmail e) <> [] ->
  serve sb isEmail development now e req w =
    (Resolved (json 400 (validation_body
       (map (fun c => mkVError (path c) (msg c) (req_body req !! path c))
          (List.filter (fails_on (req_body req)) (checks isEmail e))))), w).
Proof.
  intros Hfresh Hfail.
  assert (exists h, handler sb development now e = Some h) as [h Hh].
  { destruct e; simpl in *; by eauto. }
  rewrite (serve_run sb isEmail development now e req w h Hh).
  rewrite run_checks_errors, Hfresh, check_errors_filter. simpl.
  destruct (List.filter _ _) as [|c cs] eqn:Hf; [done|]. simpl.
  assert (validated e = true) as -> by (destruct e; simpl in *; done).
  reflexivity.
Qed.

(** An empty body on the signup route: five errors, one per field. *)
Lemma validation_lists_every_failure_witness :
  serve Scenario.client Scenario.has_at false "2024-01-01T00:00:00.000Z" Signup
    (Scenario.post ∅) Scenario.world =
    (Resolved (json 400 (validation_body
       [mkVError "email" "Please include a valid email" None;
        mkVError "password" "Please enter a password with 6 or more characters" None;
        mkVError "firstName" "First name is required" None;
        mkVError "lastName" "Last name is required" None;
        mkVError "userType" "User type is required" None])), Scenario.world).
Proof.
  rewrite (validation_lists_every_failure Scenario.client Scenario.has_at false
             "2024-01-01T00:00:00.000Z" Signup (Scenario.post ∅) Scenario.world);
    [reflexivity | reflexivity | discriminate].
Defined.

Lemma truthy_field_Some (v : option Field) (s : string) :
  truthy_field v = Some s -> v = Some (FStr s) /\ s <> EmptyString.
Proof.
  destruct v as [[|[|c t]]|]; simpl; try discriminate.
  intros [= <-]. by split.
Qed.

Lemma signup_handler_world (sb : Client) (development : bool) (req : Req)
    (w : World) :
  snd (signup_handler sb development req w) = w
  \/ exists em pw fn ln ut,
       truthy_field (req_body req !! "email") = Some em
       /\ truthy_field (req_body req !! "password") = Some pw
       /\ truthy_field (req_body req !! "firstName") = Some fn
       /\ truthy_field (req_body req !! "lastName") = Some ln
       /\ truthy_field (req_body req !! "userType") = Some ut
       /\ snd (signup_handler sb development req w) =
            snd (signUp sb em pw (mkUserData fn ln ut) w).
Proof.
  unfold signup_handler, try_catch.
  destruct (truthy_field (req_body req !! "email")) as [em|]; [|by left].
  destruct (truthy_field (req_body req !! "password")) as [pw|]; [|by left].
  destruct (truthy_field (req_body req !! "firstName")) as [fn|]; [|by left].
  destruct (truthy_field (req_body req !! "lastName")) as [ln|]; [|by left].
  destruct (truthy_field (req_body req !! "userType")) as [ut|]; [|by left].
  right. exists em, pw, fn, ln, ut. repeat split.
  unfold mbind, M_bind, bind.
  destruct (signUp_settled sb em pw (mkUserData fn ln ut) w)
    as (r & w' & -> & [(Hok & He & Hm & Hd)|[m ->]] & Hdata); [|reflexivity].
  rewrite Hok. by destruct (Hdata Hok) as (u & s & ->).
Qed.

(** Whatever the request, a sign-up that reaches the provider from the
    signup route carries the five strings of the body, and they passed the
    checks: the address is one [isEmail] accepts, the password has six
    characters or more, and the user type is CUSTOMER or HUSTLER, never
    ADMIN. *)
Theorem signup_reaches_provider_validated (sb : Client) (isEmail : string -> bool)
    (development : bool) (now : string) (req : Req) (w : World) :
  exists new,
    calls (snd (serve sb isEmail development now Signup req w)) =
      (calls w ++ new)%list
    /\ forall r, CSignUp r ∈ new ->
         req_body req !! "email" = Some (FStr (su_email r))
         /\ req_body req !! "password" = Some (FStr (su_password r))
         /\ req_body req !! "firstName" = Some (FStr (su_first_name r))
         /\ req_body req !! "lastName" = Some (FStr (su_last_name r))
         /\ req_body req !! "userType" = Some (FStr (su_user_type r))
         /\ isEmail (su_email r) = true
         /\ (6 <= String.length (su_password r))%nat
         /\ (su_user_type r = "CUSTOMER" \/ su_user_type r = "HUSTLER").
Proof.
  rewrite (serve_run sb isEmail development now Signup req w _ eq_refl).
  destruct (verrors (run_checks (checks isEmail Signup) req)) as [|v vs] eqn:Herr.
  2: { exists []. simpl. split; [by rewrite app_nil_r|].
       by intros r Hin%elem_of_nil. }
  rewrite serve_handler_world.
  rewrite run_checks_errors in Herr. apply app_eq_nil in Herr as [_ Herr].
  apply check_errors_nil in Herr.
  destruct (signup_handler_world sb development
              (run_checks (checks isEmail Signup) req) w)
    as [->|(em & pw & fn & ln & ut & Hem & Hpw & Hfn & Hln & Hut & ->)].
  { exists []. split; [by rewrite app_nil_r|]. by intros r Hin%elem_of_nil. }
  rewrite run_checks_body in Hem, Hpw, Hfn, Hln, Hut.
  apply truthy_field_Some in Hem as [Hem _], Hpw as [Hpw _], Hfn as [Hfn _],
    Hln as [Hln _], Hut as [Hut _].
  eexists. split; [apply signUp_calls|].
  intros r Hin. simpl in Hin.
  assert (r = mkSignUpReq em pw fn ln ut) as ->.
  { apply elem_of_cons in Hin as [Hin|Hin]; [by injection Hin|].
    destruct (fst (auth_signUp sb _ (db w))) as [[[u|] s [e|]]|e];
      try by apply elem_of_nil in Hin.
    apply list_elem_of_singleton in Hin. discriminate Hin. }
  simpl. repeat split; try done.
  - apply Forall_cons in Herr as [H _]. simpl in H.
    unfold isEmail_field in H. by rewrite Hem in H.
  - apply Forall_cons in Herr as [_ Herr]. apply Forall_cons in Herr as [H _].
    simpl in H. unfold isLength_min in H. rewrite Hpw in H. simpl in H.
    by apply Nat.leb_le.
  - do 4 apply Forall_cons in Herr as [_ Herr]. apply Forall_cons in Herr as [H _].
    simpl in H. unfold isIn, includes in H. rewrite Hut in H. simpl in H.
    rewrite orb_false_r in H. apply orb_true_iff in H as [H|H];
      apply String.eqb_eq in H; by auto.
Qed.


(** The signin route reaches the provider exactly when the address passes
    [isEmail] and the body has a [password] key; the password may be empty
    or [null], and both are handed over as they are. *)
Theorem signin_reaches_provider_iff (sb : Client) (isEmail : string -> bool)
    (development : bool) (now : string) (req : Req) (w : World) :
  verrors req = [] ->
  calls (snd (serve sb isEmail development now Signin req w)) =
    if isEmail (toString (req_body req !! "email"))
       && exists_ (req_body req !! "password")
    then (calls w ++ [CSignIn (field_str (req_body req !! "email"))
                        (field_str (req_body req !! "password"))])%list
    else calls w.
Proof.
  intros Hfresh.
  rewrite (serve_run sb isEmail development now Signin req w _ eq_refl).
  pose proof (run_checks_body (checks isEmail Signin) req) as Hb.
  pose proof (run_checks_errors (checks isEmail Signin) req) as Hv.
  rewrite Hfresh in Hv.
  set (req' := run_checks (checks isEmail Signin) req) in *. clearbody req'.
  unfold check_errors in Hv. simpl in Hv. unfold isEmail_field in Hv.
  destruct (isEmail (toString (req_body req !! "email"))),
    (exists_ (req_body req !! "password")); simpl in Hv; rewrite Hv;
    try reflexivity.
  rewrite serve_handler_world. cbn [andb].
  unfold signin_handler, try_catch, mbind, M_bind, bind. rewrite Hb.
  pose proof (signIn_world sb (field_str (req_body req !! "email"))
                (field_str (req_body req !! "password")) w) as Hw.
  destruct (signIn_settled sb (field_str (req_body req !! "email"))
              (field_str (req_body req !! "password")) w)
    as (r & w' & Hrun & [(Hok & He & Hm & Hd)|[m ->]] & Hdata);
    rewrite Hrun in Hw |- *; simpl in Hw; subst w'.
  - rewrite Hok. by destruct (Hdata Hok) as (d & ->).
  - reflexivity.
Qed.

(** A body whose password is [null]: the provider is called without one. *)
Lemma signin_reaches_provider_iff_witness :
  calls (snd (serve Scenario.client Scenario.has_at false "2024-01-01T00:00:00.000Z"
                Signin (Scenario.post null_password_body) Scenario.world)) =
    [CSignIn (Some "eve@example.org") None].
Proof.
  apply (signin_reaches_provider_iff Scenario.client Scenario.has_at false
           "2024-01-01T00:00:00.000Z" (Scenario.post null_password_body)
           Scenario.world).
  reflexivity.
Defined.

(** ** The trigger *)

Lemma role_of_text_name (s : string) (r : user_role) :
  role_of_text s = Some r -> role_name r = s.
Proof.
  unfold role_of_text.
  destruct (String.eqb s "CUSTOMER") eqn:H1; [apply String.eqb_eq in H1; by intros [= <-]|].
  destruct (String.eqb s "HUSTLER") eqn:H2; [apply String.eqb_eq in H2; by intros [= <-]|].
  destruct (String.eqb s "ADMIN") eqn:H3; [apply String.eqb_eq in H3; by intros [= <-]|].
  discriminate.
Qed.

(** [handle_new_user] never changes or removes a row that is already in
    [profiles], the row of the new user's own identifier included, and never
    touches [auth.users]: it adds at most the one row. *)
Theorem handle_new_user_keeps_rows (NEW : AuthUser) (d d2 : DB) :
  handle_new_user NEW d = Some d2 ->
  auth_users d2 = auth_users d
  /\ (forall k row, profiles d !! k = Some row -> profiles d2 !! k = Some row)
  /\ (forall k, k <> au_id NEW -> profiles d2 !! k = profiles d !! k).
Proof.
  unfold handle_new_user.
  destruct (coalesce_user_type (au_user_type NEW)) as [ut|]; [|discriminate].
  destruct (au_first_name NEW) as [fn|]; [|discriminate].
  destruct (au_last_name NEW) as [ln|]; [|discriminate].
  destruct (profiles d !! au_id NEW) as [old|] eqn:Hold.
  - by intros [= <-].
  - destruct (email_taken (au_email NEW) (profiles d)); [discriminate|].
    intros [= <-]. simpl. repeat split.
    + intros k row Hk. rewrite lookup_insert_ne; [done|]. congruence.
    + intros k Hk. by rewrite lookup_insert_ne.
Qed.

Lemma handle_new_user_keeps_rows_witness :
  auth_users after_trigger = auth_users before_trigger
  /\ (forall k row,
        profiles before_trigger !! k = Some row ->
        profiles after_trigger !! k = Some row)
  /\ (forall k, k <> au_id new_eve ->
        profiles after_trigger !! k = profiles before_trigger !! k).
Proof.
  apply (handle_new_user_keeps_rows new_eve before_trigger after_trigger).
  reflexivity.
Defined.

(** The row [handle_new_user] writes for a new identifier: the account's
    address and names, and the role named in the metadata, CUSTOMER when the
    metadata names none. *)
Theorem handle_new_user_row (NEW : AuthUser) (d d2 : DB) :
  handle_new_user NEW d = Some d2 ->
  profiles d !! au_id NEW = None ->
  exists row,
    profiles d2 !! au_id NEW = Some row
    /\ p_email row = au_email NEW
    /\ au_first_name NEW = Some (p_first_name row)
    /\ au_last_name NEW = Some (p_last_name row)
    /\ (au_user_type NEW = None -> p_user_type row = CUSTOMER)
    /\ (forall t, au_user_type NEW = Some t -> role_name (p_user_type row) = t).
Proof.
  unfold handle_new_user. intros H Hnew. rewrite Hnew in H.
  destruct (coalesce_user_type (au_user_type NEW)) as [ut|] eqn:Hut; [|discriminate].
  destruct (au_first_name NEW) as [fn|]; [|discriminate].
  destruct (au_last_name NEW) as [ln|]; [|discriminate].
  destruct (email_taken (au_email NEW) (profiles d)); [discriminate|].
  injection H as <-. eexists. simpl. rewrite lookup_insert_eq.
  split; [reflexivity|]. simpl. repeat split.
  - intros Hnone. rewrite Hnone in Hut. by injection Hut.
  - intros t Ht. rewrite Ht in Hut. by apply role_of_text_name.
Qed.

Lemma handle_new_user_row_witness :
  exists row,
    profiles (with_profiles (<["u9" := mkProfile "eve@example.org" "Eve" "N" CUSTOMER]> ∅)
                eve_created) !! au_id new_eve = Some row
    /\ p_email row = au_email new_eve
    /\ au_first_name new_eve = Some (p_first_name row)
    /\ au_last_name new_eve = Some (p_last_name row)
    /\ (au_user_type new_eve = None -> p_user_type row = CUSTOMER)
    /\ (forall t, au_user_type new_eve = Some t -> role_name (p_user_type row) = t).
Proof.
  apply (handle_new_user_row new_eve eve_created
           (with_profiles (<["u9" := mkProfile "eve@example.org" "Eve" "N" CUSTOMER]> ∅)
              eve_created)); reflexivity.
Defined.

(** An account whose metadata names no role gets a CUSTOMER profile. *)
Example handle_new_user_default_role :
  handle_new_user (mkAuthUser "u9" "eve@example.org" (Some "Eve") (Some "N") None)
    eve_created =
    Some (with_profiles (<["u9" := mkProfile "eve@example.org" "Eve" "N" CUSTOMER]> ∅)
            eve_created).
Proof. reflexivity. Qed.

(** Without the trigger, a sign-up the provider accepts for a new
    identifier and a free address ends in success with the profile row
    written as asked; the lookup [requireRole] makes then finds the requested
    role, and a route that allows that role lets the user through. *)
Theorem signUp_then_authorized (P : Provider) (em pw : string) (ud : UserData)
    (w : World) (u : User) (s : option Session) (granted : user_role) :
  trigger_installed (db w) = false ->
  decide_signUp P (mkSignUpReq em pw (firstName ud) (lastName ud) (userType ud)) =
    Created u s ->
  auth_users (db w) !! id u = None ->
  profiles (db w) !! id u = None ->
  email_taken em (profiles (db w)) = false ->
  role_of_text (userType ud) = Some granted ->
  insert_fault P (mkProfileInput (id u) em (firstName ud) (lastName ud)
                    (userType ud)) = None ->
  select_fault P (id u) = None ->
  let after := snd (signUp (pg_client P) em pw ud w) in
  fst (signUp (pg_client P) em pw ud w) = Resolved (ok (Some (mkAuthData (Some u) s)))
  /\ profiles (db after) !! id u =
       Some (mkProfile em (firstName ud) (lastName ud) granted)
  /\ is_Some (auth_users (db after) !! id u)
  /\ fst (requireRole (pg_client P) [userType ud] (mkReq None (Some u) ∅ []) after) =
       Resolved (Next (mkReq None
                         (Some (mkUser (id u) (email u) (email_confirmed_at u)
                                  (Some (userType ud)))) ∅ [])).
Proof.
  intros Htrig Hdec Hfresh Hrow Hfree Hrole Hins Hsel after.
  set (r := mkSignUpReq em pw (firstName ud) (lastName ud) (userType ud)) in *.
  set (row := mkProfileInput (id u) em (firstName ud) (lastName ud) (userType ud)) in *.
  set (d1 := with_auth_users
               (<[id u := mkAuthUser (id u) em (Some (firstName ud))
                            (Some (lastName ud)) (Some (userType ud))]>
                  (auth_users (db w))) (db w)).
  assert (pg_signUp P r (db w) = (Resolved (mkAuthResp (Some u) s None), d1)) as Hcreate.
  { unfold pg_signUp. by rewrite Hdec, Hfresh, Htrig. }
  assert (pg_insert P row d1 =
            (Resolved (mkPlainResp None None),
             with_profiles (<[id u := mkProfile em (firstName ud) (lastName ud) granted]>
                              (profiles d1)) d1)) as Hinsert.
  { unfold pg_insert. rewrite Hins. simpl. rewrite Hrole, Hrow, Hfree.
    by rewrite lookup_insert_eq. }
  pose proof (signUp_after_create (pg_client P) em pw ud w u s d1 Hcreate) as Hrun.
  cbv zeta in Hrun. fold row in Hrun. simpl in Hrun. rewrite Hinsert in Hrun.
  simpl in Hrun. subst after. rewrite Hrun. simpl.
  split; [reflexivity|]. split; [by rewrite lookup_insert_eq|].
  split; [by rewrite lookup_insert_eq|].
  erewrite requireRole_member; [reflexivity | reflexivity | | ].
  - simpl. unfold pg_select_single. rewrite Hsel. simpl.
    rewrite lookup_insert_eq. simpl. by rewrite (role_of_text_name _ _ Hrole).
  - apply list_elem_of_here.
Qed.

Lemma signUp_then_authorized_witness :
  fst (signUp Scenario.client "eve@example.org" "secret1"
         (mkUserData "Eve" "N" "CUSTOMER") fresh_world) =
    Resolved (ok (Some (mkAuthData (Some Scenario.u9) None)))
  /\ profiles (db (snd (signUp Scenario.client "eve@example.org" "secret1"
                          (mkUserData "Eve" "N" "CUSTOMER") fresh_world))) !! "u9" =
       Some (mkProfile "eve@example.org" "Eve" "N" CUSTOMER)
  /\ is_Some (auth_users (db (snd (signUp Scenario.client "eve@example.org" "secret1"
                                     (mkUserData "Eve" "N" "CUSTOMER") fresh_world)))
                !! "u9")
  /\ fst (requireRole Scenario.client ["CUSTOMER"]
            (mkReq None (Some Scenario.u9) ∅ [])
            (snd (signUp Scenario.client "eve@example.org" "secret1"
                    (mkUserData "Eve" "N" "CUSTOMER") fresh_world))) =
       Resolved (Next (mkReq None
                         (Some (mkUser "u9" (Some "eve@example.org") None
                                  (Some "CUSTOMER"))) ∅ [])).
Proof.
  apply (signUp_then_authorized Scenario.provider "eve@example.org" "secret1"
           (mkUserData "Eve" "N" "CUSTOMER") fresh_world Scenario.u9 None CUSTOMER);
    reflexivity.
Defined.

(** ** The other two versions of [signUp] *)

Ltac xclean_failed := apply failed_clean; discriminate.

Lemma redirect_url_configured (env : option string) :
  redirect_url env =
    match env with
    | Some (String a url) => String a url
    | _ => "http://localhost:3000/auth/callback"
    end.
Proof. by destruct env as [[|a url]|]. Qed.

(** The trigger-only [signUp] never throws and makes the one sign-up call
    and nothing else, with the fields of the request and, as
    [emailRedirectTo], the configured address when one is configured and
    not empty, the local default otherwise.  It reports success exactly when
    that call resolves without an error and with a [data] object, and then
    returns the user and the session of that object; an answer without
    [data] is a failure.  Over a client that always sends [data] it is the
    function of the section above. *)
Theorem trigger_only_signUp_one_call
    (auth_signUp : SignUpReq -> string -> DB -> Outcome TriggerOnlyAny.SignUpAnswer * DB)
    (env : option string) (em pw : string) (ud : UserData) (w : XWorld) :
  let r := mkSignUpReq em pw (firstName ud) (lastName ud) (userType ud) in
  let url := match env with
             | Some (String a url) => String a url
             | _ => "http://localhost:3000/auth/callback"
             end in
  let run := TriggerOnlyAny.signUp auth_signUp env em pw ud w in
  clean run
  /\ snd run = mkXWorld (snd (auth_signUp r url (xdb w)))
                 (xcalls w ++ [XSignUp r url])
  /\ (forall res, fst run = Resolved res ->
      (success res = true <->
       exists authData,
         fst (auth_signUp r url (xdb w)) =
           Resolved (TriggerOnlyAny.mkSignUpAnswer (Some authData) None))
      /\ (forall authData,
            fst (auth_signUp r url (xdb w)) =
              Resolved (TriggerOnlyAny.mkSignUpAnswer (Some authData) None) ->
            data res = Some authData /\ message res = Some signup_message))
  /\ (forall c : XClient,
        TriggerOnly.signUp c env em pw ud w =
          TriggerOnlyAny.signUp (TriggerOnlyAny.with_data (x_signUp c)) env em pw ud w).
Proof.
  intros r url run. subst run.
  unfold TriggerOnlyAny.signUp, xtry_catch, mbind, X_bind, xbind, xawait. fold r.
  rewrite (redirect_url_configured env). fold url.
  repeat apply conj.
  - destruct (auth_signUp r url (xdb w)) as [[[[d|] [e|]]|e] d1]; simpl;
      first [xclean_failed | eexists _, _; split; [reflexivity|]; by left].
  - by destruct (auth_signUp r url (xdb w)) as [[[[d|] [e|]]|e] d1].
  - intros res.
    destruct (auth_signUp r url (xdb w)) as [[[[d|] [e|]]|e] d1]; simpl;
      intros [= <-]; simpl;
      (split; [split; [try discriminate; intros _; by eexists
                      | try done; by intros (d' & [=])]
              | try (by intros d' [=])]).
    intros d' [= <-]. by destruct d.
  - intros c.
    unfold TriggerOnly.signUp, TriggerOnlyAny.with_data, xtry_catch, mbind, X_bind,
      xbind, xawait.
    fold r. rewrite (redirect_url_configured env). fold url.
    by destruct (x_signUp c r url (xdb w)) as [[[cu s [e|]]|e] d1].
Qed.

(** With the address configured it is the one passed on; an answer without
    [data] or error ends in a failure. *)
Example trigger_only_signUp_configured :
  let answer (_ : SignUpReq) (_ : string) (d : DB) :=
    (Resolved (TriggerOnlyAny.mkSignUpAnswer None None), d) in
  TriggerOnlyAny.signUp answer (Some "https://hustlrs.app/cb") "eve@example.org"
    "secret1" (mkUserData "Eve" "N" "CUSTOMER") (mkXWorld (db fresh_world) []) =
    (Resolved (mkResult false None
                 (Some "Cannot read properties of undefined (reading 'user')")
                 None None),
     mkXWorld (db fresh_world)
       [XSignUp (mkSignUpReq "eve@example.org" "secret1" "Eve" "N" "CUSTOMER")
          "https://hustlrs.app/cb"]).
Proof. reflexivity. Qed.

Lemma pg_insert_conflict_db (P : Provider) (row : ProfileInput) (d : DB) :
  is_Some (profiles d !! pi_id row) -> snd (pg_insert P row d) = d.
Proof.
  intros [p Hp]. unfold pg_insert. rewrite Hp.
  destruct (insert_fault P row) as [[e|e]|]; try reflexivity.
  by destruct (role_of_text (pi_user_type row)).
Qed.

(** The two versions disagree once the trigger is installed: when the
    provider creates the account, the trigger-only [signUp] reports success
    and the inserting [signUp] of auth.service.js reports failure, on the
    same account and the same profile row, which both leave in place. *)
Theorem signUp_versions_disagree (P : Provider)
    (update : string -> list (string * Json) -> DB -> Outcome PlainResp * DB)
    (env : option string) (em pw : string) (ud : UserData) (d d1 : DB)
    (u : User) (s : option Session) (log : list Call) (xlog : list XCall) :
  trigger_installed d = true ->
  pg_signUp P (mkSignUpReq em pw (firstName ud) (lastName ud) (userType ud)) d =
    (Resolved (mkAuthResp (Some u) s None), d1) ->
  (exists res w',
     TriggerOnly.signUp (pg_xclient P update) env em pw ud (mkXWorld d xlog) =
       (Resolved res, w')
     /\ success res = true /\ xdb w' = d1)
  /\ (exists res w',
        signUp (pg_client P) em pw ud (mkWorld d log) = (Resolved res, w')
        /\ success res = false /\ db w' = d1)
  /\ is_Some (auth_users d1 !! id u)
  /\ is_Some (profiles d1 !! id u).
Proof.
  intros Htrig Hcreate.
  destruct (pg_signUp_created P _ d d1 u s Hcreate) as [Hacc Hrow].
  specialize (Hrow Htrig).
  split; [|split; [|by split]].
  - unfold TriggerOnly.signUp, xtry_catch, mbind, X_bind, xbind, xawait.
    simpl. rewrite Hcreate. simpl. by eexists _, _.
  - rewrite (signUp_after_create (pg_client P) em pw ud (mkWorld d log) u s d1 Hcreate).
    simpl.
    pose proof (pg_insert_conflict P
                  (mkProfileInput (id u) em (firstName ud) (lastName ud) (userType ud))
                  d1 Hrow) as [e He].
    rewrite He. eexists _, _. split; [reflexivity|]. split; [reflexivity|].
    simpl. by apply pg_insert_conflict_db.
Qed.

Lemma signUp_versions_disagree_witness :
  (exists res w',
     TriggerOnly.signUp (pg_xclient Scenario.provider update_refused) None
       "eve@example.org" "secret1" eve (mkXWorld Scenario.database []) =
       (Resolved res, w')
     /\ success res = true /\ xdb w' = after_trigger)
  /\ (exists res w',
        signUp (pg_client Scenario.provider) "eve@example.org" "secret1" eve
          (mkWorld Scenario.database []) = (Resolved res, w')
        /\ success res = false /\ db w' = after_trigger)
  /\ is_Some (auth_users after_trigger !! id Scenario.u9)
  /\ is_Some (profiles after_trigger !! id Scenario.u9).
Proof.
  apply (signUp_versions_disagree Scenario.provider update_refused None
           "eve@example.org" "secret1" eve Scenario.database after_trigger
           Scenario.u9 None [] []); reflexivity.
Defined.

Lemma str_includes_append (a sub b : string) :
  str_includes (String.append a (String.append sub b)) sub = true.
Proof.
  induction a as [|ch a IH].
  - change (String.append EmptyString (String.append sub b))
      with (String.append sub b).
    pose proof (startsWith_append sub b) as Hp. unfold startsWith in Hp.
    assert (forall s, str_includes s sub =
              String.prefix sub s
              || match s with
                 | EmptyString => false
                 | String _ s' => str_includes s' sub
                 end) as Hunfold by (by intros []).
    by rewrite Hunfold, Hp.
  - simpl. rewrite IH. by rewrite orb_true_r.
Qed.

(** The defensive [signUp] never throws, and the calls it adds to the log
    are fixed by the client's answers: the sign-up; then, only when it
    resolved without an error and with a user, [getUser] on that user's
    identifier; then, only when [getUser] resolved without an error and with
    a user, the lookup of the profile of the user [getUser] answered; then,
    only when the lookup resolved with an error or without a row, the insert
    of a row under that user's identifier and address with the names and the
    role of the request.  Each call is made at most once. *)
Theorem defensive_signUp_calls (c : XClient) (env : option string)
    (em pw : string) (ud : UserData) (w : XWorld) :
  let r := mkSignUpReq em pw (firstName ud) (lastName ud) (userType ud) in
  let run := Defensive.signUp c env em pw ud w in
  let d1 := snd (x_signUp c r (redirect_url env) (xdb w)) in
  clean run
  /\ xcalls (snd run) =
       (xcalls w ++
        XSignUp r (redirect_url env) ::
        match fst (x_signUp c r (redirect_url env) (xdb w)) with
        | Resolved (mkAuthResp (Some created) _ None) =>
            XGetUser (Some (id created)) ::
            match x_getUser c (Some (id created)) d1 with
            | Resolved (mkGetUserResp (Some (Some u)) None) =>
                XSelectStar (id u) ::
                match x_select_star c (id u) d1 with
                | Resolved (mkRowResp (Some _) None) => []
                | Resolved _ =>
                    [XInsertReturning
                       (mkRowInput (id u) (email u) (firstName ud)
                          (lastName ud) (userType ud))]
                | Rejected _ => []
                end
            | _ => []
            end
        | _ => []
        end)%list.
Proof.
  intros r run d1. subst run d1.
  unfold Defensive.signUp, xtry_catch, mbind, X_bind, xbind, xawait, xawait_read.
  fold r.
  destruct (x_signUp c r (redirect_url env) (xdb w)) as [[[cu s e]|e] d1].
  2: { simpl. split; [xclean_failed|]. reflexivity. }
  simpl. destruct e as [e|].
  { destruct (err_message e) as [m|];
      [destruct (str_includes m "already registered")|]; simpl;
      (split; [xclean_failed|]); by destruct cu. }
  destruct cu as [created|].
  2: { simpl. split; [xclean_failed|]. reflexivity. }
  cbn.
  destruct (x_getUser c (Some (id created)) d1) as [[gd ge]|e].
  2: { cbn. split; [xclean_failed|]. by rewrite <- app_assoc. }
  cbn. destruct gd as [[u|]|], ge as [ge|]; cbn;
    try (split; [xclean_failed|]; by rewrite <- app_assoc).
  destruct (x_select_star c (id u) d1) as [[rd re]|e].
  2: { cbn. split; [xclean_failed|]. by rewrite <- !app_assoc. }
  cbn. destruct re as [re|], rd as [row|]; cbn.
  3: { split; [eexists _, _; split; [reflexivity|]; by left|].
       by rewrite <- !app_assoc. }
  all: destruct (x_insert_returning c _ d1) as [[[id' ie]|e] d2]; cbn;
    try destruct ie; cbn;
    (split; [first [xclean_failed | eexists _, _; split; [reflexivity|]; by left]|]);
    by rewrite <- !app_assoc.
Qed.

(** When the created user's profile is already there (the trigger wrote
    it), the defensive [signUp] reports success after three calls, does not
    insert, and leaves the database as the sign-up left it. *)
Theorem defensive_signUp_skips_insert (c : XClient) (env : option string)
    (em pw : string) (ud : UserData) (w : XWorld) (created u : User)
    (s : option Session) (d1 : DB) (row : ProfileRow) :
  let r := mkSignUpReq em pw (firstName ud) (lastName ud) (userType ud) in
  x_signUp c r (redirect_url env) (xdb w) =
    (Resolved (mkAuthResp (Some created) s None), d1) ->
  x_getUser c (Some (id created)) d1 =
    Resolved (mkGetUserResp (Some (Some u)) None) ->
  x_select_star c (id u) d1 = Resolved (mkRowResp (Some row) None) ->
  Defensive.signUp c env em pw ud w =
    (Resolved (mkResult true (Some (mkAuthData (Some created) s)) None
                 (Some signup_message) None),
     mkXWorld d1 (xcalls w ++ [XSignUp r (redirect_url env);
                               XGetUser (Some (id created)); XSelectStar (id u)])).
Proof.
  intros r Hcreate Hget Hsel.
  unfold Defensive.signUp, xtry_catch, mbind, X_bind, xbind, xawait, xawait_read.
  fold r. rewrite Hcreate. cbn. rewrite Hget. cbn. rewrite Hsel. cbn.
  by rewrite <- !app_assoc.
Qed.

Lemma defensive_signUp_skips_insert_witness :
  Defensive.signUp (pg_xclient provider_lenient update_refused) None
    "eve@example.org" "secret1" eve (xworld Scenario.database) =
    (Resolved (mkResult true (Some (mkAuthData (Some Scenario.u9) None)) None
                 (Some signup_message) None),
     mkXWorld after_trigger
       ([] ++ [XSignUp eve_request (redirect_url None);
               XGetUser (Some "u9"); XSelectStar "u9"])).
Proof.
  apply (defensive_signUp_skips_insert (pg_xclient provider_lenient update_refused)
           None "eve@example.org" "secret1" eve (xworld Scenario.database)
           Scenario.u9 Scenario.u9 None after_trigger
           (mkProfile "eve@example.org" "Eve" "N" CUSTOMER)); reflexivity.
Defined.

(** The defensive [signUp] hands [getUser] the identifier of the user it
    has just created.  When the provider answers that with an error, the
    result is a failure although the account exists, together with its
    profile when the trigger is installed; no lookup and no insert are
    made. *)
Theorem defensive_signUp_not_atomic (P : Provider)
    (update : string -> list (string * Json) -> DB -> Outcome PlainResp * DB)
    (env : option string) (em pw : string) (ud : UserData) (w : XWorld)
    (created : User) (s : option Session) (d1 : DB) (user : option User)
    (e : JsError) :
  let r := mkSignUpReq em pw (firstName ud) (lastName ud) (userType ud) in
  pg_signUp P r (xdb w) = (Resolved (mkAuthResp (Some created) s None), d1) ->
  verify P (Some (id created)) = Resolved (mkGetUserResp (Some user) (Some e)) ->
  Defensive.signUp (pg_xclient P update) env em pw ud w =
    (Resolved (mkResult false None
                 (Some (or_else (err_message e) "Failed to sign up user")) None None),
     mkXWorld d1 (xcalls w ++ [XSignUp r (redirect_url env);
                               XGetUser (Some (id created))]))
  /\ is_Some (auth_users d1 !! id created)
  /\ (trigger_installed (xdb w) = true -> is_Some (profiles d1 !! id created)).
Proof.
  intros r Hcreate Hget.
  split; [|by apply (pg_signUp_created P r (xdb w) d1 created s)].
  unfold Defensive.signUp, xtry_catch, mbind, X_bind, xbind, xawait, xawait_read.
  fold r. simpl. rewrite Hcreate. cbn. rewrite Hget. cbn.
  by rewrite <- !app_assoc.
Qed.

(** With the provider of the scenarios the identifier [u9] is no token. *)
Lemma defensive_signUp_not_atomic_witness :
  Defensive.signUp (pg_xclient Scenario.provider update_refused) None
    "eve@example.org" "secret1" eve (xworld Scenario.database) =
    (Resolved (mkResult false None (Some "invalid JWT") None None),
     mkXWorld after_trigger
       ([] ++ [XSignUp eve_request (redirect_url None); XGetUser (Some "u9")]))
  /\ is_Some (auth_users after_trigger !! "u9")
  /\ (trigger_installed (xdb (xworld Scenario.database)) = true ->
      is_Some (profiles after_trigger !! "u9")).
Proof.
  apply (defensive_signUp_not_atomic Scenario.provider update_refused None
           "eve@example.org" "secret1" eve (xworld Scenario.database)
           Scenario.u9 None after_trigger None Scenario.invalid_jwt); reflexivity.
Defined.

(** An error of the sign-up whose message contains [already registered] is
    reported under the fixed message; an error without a message ends in the
    message of the exception raised by reading it; any other error is
    reported under its own message.  No further call is made. *)
Theorem defensive_signUp_refused (c : XClient) (env : option string)
    (em pw : string) (ud : UserData) (w : XWorld) (resp : AuthResp) (d1 : DB)
    (e : JsError) :
  let r := mkSignUpReq em pw (firstName ud) (lastName ud) (userType ud) in
  x_signUp c r (redirect_url env) (xdb w) = (Resolved resp, d1) ->
  ar_error resp = Some e ->
  snd (Defensive.signUp c env em pw ud w) =
    mkXWorld d1 (xcalls w ++ [XSignUp r (redirect_url env)])
  /\ (forall a b,
        err_message e =
          Some (String.append a (String.append "already registered" b)) ->
        fst (Defensive.signUp c env em pw ud w) =
          Resolved (mkResult false None
                      (Some "This email is already registered. Please sign in instead.")
                      None None))
  /\ (err_message e = None ->
      fst (Defensive.signUp c env em pw ud w) =
        Resolved (mkResult false None
                    (Some "Cannot read properties of undefined (reading 'includes')")
                    None None))
  /\ (forall m,
        err_message e = Some m -> str_includes m "already registered" = false ->
        fst (Defensive.signUp c env em pw ud w) =
          Resolved (mkResult false None (Some (or_else (Some m) "Failed to sign up user"))
                      None None)).
Proof.
  intros r Hcall He.
  unfold Defensive.signUp, xtry_catch, mbind, X_bind, xbind, xawait, xawait_read.
  fold r. rewrite Hcall. cbn. rewrite He.
  repeat apply conj.
  - destruct (err_message e) as [m|];
      [destruct (str_includes m "already registered")|]; reflexivity.
  - intros a b Hm. rewrite Hm, str_includes_append. reflexivity.
  - intros Hm. rewrite Hm. reflexivity.
  - intros m Hm Hnot. rewrite Hm, Hnot. cbn. unfold failed. by rewrite Hm.
Qed.

Lemma defensive_signUp_refused_witness :
  snd (Defensive.signUp (pg_xclient provider_taken update_refused) None
         "ada@example.org" "secret1" eve (xworld Scenario.database)) =
    mkXWorld Scenario.database
      (xcalls (xworld Scenario.database) ++
       [XSignUp (mkSignUpReq "ada@example.org" "secret1" (firstName eve)
                   (lastName eve) (userType eve)) (redirect_url None)])
  /\ fst (Defensive.signUp (pg_xclient provider_taken update_refused) None
            "ada@example.org" "secret1" eve (xworld Scenario.database)) =
       Resolved (mkResult false None
                   (Some "This email is already registered. Please sign in instead.")
                   None None).
Proof.
  pose proof (defensive_signUp_refused (pg_xclient provider_taken update_refused)
                None "ada@example.org" "secret1" eve (xworld Scenario.database)
                (mkAuthResp None None (Some user_already_registered))
                Scenario.database user_already_registered eq_refl eq_refl)
    as (Hworld & Hregistered & _).
  split; [exact Hworld|].
  exact (Hregistered "User " EmptyString eq_refl).
Defined.

(** When the lookup finds no profile (or fails), the defensive [signUp]
    inserts one itself, with the identifier and the address of the user
    [getUser] returned, and reports success exactly when that insert
    resolves without an error. *)
Theorem defensive_signUp_inserts_when_missing (c : XClient) (env : option string)
    (em pw : string) (ud : UserData) (w : XWorld) (created u : User)
    (s : option Session) (d1 : DB) (found : RowResp) :
  let r := mkSignUpReq em pw (firstName ud) (lastName ud) (userType ud) in
  let row := mkRowInput (id u) (email u) (firstName ud) (lastName ud) (userType ud) in
  let run := Defensive.signUp c env em pw ud w in
  x_signUp c r (redirect_url env) (xdb w) =
    (Resolved (mkAuthResp (Some created) s None), d1) ->
  x_getUser c (Some (id created)) d1 =
    Resolved (mkGetUserResp (Some (Some u)) None) ->
  x_select_star c (id u) d1 = Resolved found ->
  rw_data found = None \/ rw_error found <> None ->
  snd run =
    mkXWorld (snd (x_insert_returning c row d1))
      (xcalls w ++ [XSignUp r (redirect_url env); XGetUser (Some (id created));
                    XSelectStar (id u); XInsertReturning row])
  /\ (forall res, fst run = Resolved res ->
      (success res = true <->
       exists ins, fst (x_insert_returning c row d1) = Resolved ins
                   /\ rw_error ins = None)).
Proof.
  intros r row run Hcreate Hget Hsel Hmissing. subst run.
  unfold Defensive.signUp, xtry_catch, mbind, X_bind, xbind, xawait, xawait_read.
  fold r. rewrite Hcreate. cbn. rewrite Hget. cbn. rewrite Hsel. cbn.
  assert (forall A (x y : A),
            match rw_error found, rw_data found with
            | None, Some _ => x
            | _, _ => y
            end = y) as Hbranch.
  { intros A x y. destruct (rw_error found), (rw_data found); try reflexivity.
    by destruct Hmissing. }
  rewrite Hbranch. subst row. cbn [xdb xcalls].
  destruct (x_insert_returning c _ d1) as [[[idata ie]|e] d2]; cbn.
  - destruct ie as [ie|]; cbn; (split; [by rewrite <- !app_assoc|]);
      intros res [= <-]; simpl.
    + split; [discriminate|]. intros (ins & [= <-] & Hnone). discriminate Hnone.
    + split; [|done]. intros _. by eexists.
  - split; [by rewrite <- !app_assoc|]. intros res [= <-]. simpl.
    split; [discriminate|]. by intros (ins & Hins & _).
Qed.

(** Without the trigger the row is missing and is inserted. *)
Lemma defensive_signUp_inserts_when_missing_witness :
  snd (Defensive.signUp (pg_xclient provider_lenient update_refused) None
         "eve@example.org" "secret1" eve (xworld (db fresh_world))) =
    mkXWorld
      (snd (x_insert_returning (pg_xclient provider_lenient update_refused)
              (mkRowInput (id Scenario.u9) (email Scenario.u9) (firstName eve)
                 (lastName eve) (userType eve)) eve_created))
      (xcalls (xworld (db fresh_world)) ++
       [XSignUp (mkSignUpReq "eve@example.org" "secret1" (firstName eve)
                   (lastName eve) (userType eve)) (redirect_url None);
        XGetUser (Some (id Scenario.u9)); XSelectStar (id Scenario.u9);
        XInsertReturning (mkRowInput (id Scenario.u9) (email Scenario.u9)
                            (firstName eve) (lastName eve) (userType eve))])
  /\ (forall res,
        fst (Defensive.signUp (pg_xclient provider_lenient update_refused) None
               "eve@example.org" "secret1" eve (xworld (db fresh_world))) =
          Resolved res ->
        (success res = true <->
         exists ins,
           fst (x_insert_returning (pg_xclient provider_lenient update_refused)
                  (mkRowInput (id Scenario.u9) (email Scenario.u9) (firstName eve)
                     (lastName eve) (userType eve)) eve_created) = Resolved ins
           /\ rw_error ins = None)).
Proof.
  apply (defensive_signUp_inserts_when_missing
           (pg_xclient provider_lenient update_refused) None
           "eve@example.org" "secret1" eve (xworld (db fresh_world))
           Scenario.u9 Scenario.u9 None eve_created
           (mkRowResp None (Some no_rows)));
    [reflexivity | reflexivity | reflexivity | by left].
Defined.

(** The row it inserts there, under the address the provider reported. *)
Example defensive_signUp_inserted_row :
  profiles (xdb (snd (Defensive.signUp (pg_xclient provider_lenient update_refused)
                        None "eve@example.org" "secret1" eve
                        (xworld (db fresh_world))))) !! "u9" =
    Some (mkProfile "eve@example.org" "Eve" "N" CUSTOMER).
Proof. reflexivity. Qed.

(** ** [updateProfile] *)

(** [updateProfile] never throws and makes the one update call, on the
    given identifier and with the given changes; it hands back the rows the
    update returned, or a failure under the error's message. *)
Theorem updateProfile_one_call (c : XClient) (userId : string)
    (updates : list (string * Json)) (w : XWorld) :
  let run := Profile.updateProfile c userId updates w in
  clean run
  /\ snd run = mkXWorld (snd (x_update c userId updates (xdb w)))
                 (xcalls w ++ [XUpdate userId updates])
  /\ (forall resp d',
        x_update c userId updates (xdb w) = (Resolved resp, d') ->
        fst run =
          Resolved match pl_error resp with
                   | None => mkResult true (pl_data resp) None None None
                   | Some e => failed e "Failed to update profile"
                   end)
  /\ (forall e d',
        x_update c userId updates (xdb w) = (Rejected e, d') ->
        fst run = Resolved (failed e "Failed to update profile")).
Proof.
  intros run. subst run.
  unfold Profile.updateProfile, xtry_catch, mbind, X_bind, xbind, xawait.
  destruct (x_update c userId updates (xdb w)) as [[resp|e] d1]; simpl.
  - destruct (pl_error resp) as [e|] eqn:He; simpl.
    + split; [xclean_failed|]. split; [reflexivity|]. split.
      * intros resp' d' [= <- <-]. by rewrite He.
      * intros e' d' Hrej. discriminate Hrej.
    + split; [eexists _, _; split; [reflexivity|]; by left|].
      split; [reflexivity|]. split.
      * intros resp' d' [= <- <-]. by rewrite He.
      * intros e' d' Hrej. discriminate Hrej.
  - split; [xclean_failed|]. split; [reflexivity|]. split.
    + intros resp' d' Hres. discriminate Hres.
    + by intros e' d' [= <- <-].
Qed.

(** ** The session storage of the client *)

(** On the server, where there is no [window], the storage handed to the
    client keeps nothing: whatever is set or removed, every key reads
    [null]. *)
Theorem server_storage_keeps_nothing (ops : list Config.StorageOp) (key : string) :
  fold_left Config.apply_op ops None = None
  /\ Config.getItem (fold_left Config.apply_op ops None) key = None.
Proof.
  assert (fold_left Config.apply_op ops None = None) as Hnone.
  { induction ops as [|op ops IH]; [done|]. simpl. by destruct op. }
  by rewrite Hnone.
Qed.

(** ** The statuses of the routes *)

Ltac status_ok :=
  eexists _, _; split; [reflexivity|]; simpl;
  rewrite !elem_of_cons; by auto.

Lemma handler_status (sb : Client) (development : bool) (now : string)
    (e : Endpoint) (h : Middleware) (req : Req) (w : World) :
  handler sb development now e = Some h ->
  exists r w', h req w = (Resolved (Respond r), w') /\ status r ∈ statuses e.
Proof.
  destruct e; simpl; intros [= <-].
  - unfold health. status_ok.
  - unfold signup_handler, try_catch.
    destruct (truthy_field (req_body req !! "email")) as [em|]; [|status_ok].
    destruct (truthy_field (req_body req !! "password")) as [pw|]; [|status_ok].
    destruct (truthy_field (req_body req !! "firstName")) as [fn|]; [|status_ok].
    destruct (truthy_field (req_body req !! "lastName")) as [ln|]; [|status_ok].
    destruct (truthy_field (req_body req !! "userType")) as [ut|]; [|status_ok].
    unfold mbind, M_bind, bind.
    destruct (signUp_settled sb em pw (mkUserData fn ln ut) w)
      as (r & w' & -> & [(Hok & He & Hm & Hd)|[m ->]] & Hdata); [|cbn; status_ok].
    rewrite Hok. destruct (Hdata Hok) as (u & s & ->). cbn. status_ok.
  - unfold signin_handler, try_catch, mbind, M_bind, bind.
    destruct (signIn_settled sb (field_str (req_body req !! "email"))
                (field_str (req_body req !! "password")) w)
      as (r & w' & -> & [(Hok & He & Hm & Hd)|[m ->]] & Hdata); [|cbn; status_ok].
    rewrite Hok. destruct (Hdata Hok) as (d & ->). cbn. status_ok.
  - unfold signout_handler, try_catch, mbind, M_bind, bind.
    destruct (signOut_settled sb w)
      as (r & w' & -> & [(Hok & He & Hm & Hd)|[m ->]] & Hdata); [|cbn; status_ok].
    rewrite Hok. cbn. status_ok.
  - unfold session_handler, try_catch, mbind, M_bind, bind.
    destruct (getSession_settled sb w)
      as (r & w' & -> & [(Hok & He & Hm & Hd)|[m ->]] & Hdata); [|cbn; status_ok].
    rewrite Hok. cbn. status_ok.
  - unfold user_handler, try_catch, mbind, M_bind, bind.
    destruct (getUser_settled sb w)
      as (r & w' & -> & [(Hok & He & Hm & Hd)|[m ->]] & Hdata); [|cbn; status_ok].
    rewrite Hok. cbn. status_ok.
  - unfold reset_handler, try_catch, mbind, M_bind, bind.
    destruct (resetPassword_settled sb (field_str (req_body req !! "email")) w)
      as (r & w' & -> & [(Hok & He & Hm & Hd)|[m ->]] & Hdata); [|cbn; status_ok].
    rewrite Hok. cbn. status_ok.
Qed.

(** A request that reaches the routes is answered with one of the statuses
    of its route: 201 or 400 for signup, 200 or 400 for signin, signout and
    reset-password, 200 or 401 for session and user, 200 for health, 404 for
    anything else.  With this service, which never throws, the [catch]
    blocks of the handlers are never entered. *)
Lemma serve_statuses (sb : Client) (isEmail : string -> bool)
    (development : bool) (now : string) (e : Endpoint) (req : Req) (w : World) :
  exists r w',
    serve sb isEmail development now e req w = (Resolved r, w')
    /\ status r ∈ statuses e
    /\ status r <> 500.
Proof.
  assert (forall z, z ∈ statuses e -> z <> 500) as Hnot.
  { intros z Hz ->. destruct e; simpl in Hz;
      rewrite !elem_of_cons, elem_of_nil in Hz; by intuition. }
  destruct (handler sb development now e) as [h|] eqn:Hh.
  - rewrite (serve_run sb isEmail development now e req w h Hh).
    pose proof (handler_status sb development now e h
                  (run_checks (checks isEmail e) req) w Hh) as (r & w' & Hrun & Hst).
    assert (serve_handler h (run_checks (checks isEmail e) req) w = (Resolved r, w'))
      as Hserve by (unfold serve_handler; by rewrite Hrun).
    destruct (verrors (run_checks (checks isEmail e) req)) as [|v errors];
      [eexists _, _; split; [exact Hserve|]; by auto|].
    destruct (validated e) eqn:Hv;
      [|eexists _, _; split; [exact Hserve|]; by auto].
    assert (400 ∈ statuses e) as H400
      by (destruct e; simpl in *; try discriminate; rewrite !elem_of_cons; by auto).
    eexists _, _. split; [reflexivity|]. simpl. by auto.
  - destruct e; try discriminate Hh.
    exists notFound, w. split; [reflexivity|]. simpl.
    split; [apply list_elem_of_here | done].
Qed.

(** ** The application as a whole *)

Lemma errorHandler_status (development : bool) (err : JsError) :
  status (errorHandler development err) =
    if bool_decide (err_name err = Some "JsonWebTokenError") then 401
    else if bool_decide (err_name err = Some "TokenExpiredError") then 401
    else 500.
Proof. unfold errorHandler. by repeat case_bool_decide. Qed.

Lemma app_parsed (sb : Client) (isEmail : string -> bool) (development : bool)
    (now : string) (e : Endpoint) (req : Req) (w : World) (r : Response) (w' : World) :
  serve sb isEmail development now e req w = (Resolved r, w') ->
  Application.app sb isEmail development now (Application.Parsed e req) w =
    (Resolved (Application.Sent r), w').
Proof.
  intros Hserve. unfold Application.app, mbind, M_bind, bind. by rewrite Hserve.
Qed.

(** The application always answers.  A preflight request is answered 204
    by [cors]; a request whose body a parser refuses is answered by
    [errorHandler], before any route and with the world unchanged; a request
    that reaches the routes is answered as [serve] answers, with one of the
    statuses of its route.  The answer is 500 exactly when a body parser
    refused the request with an error that [errorHandler] does not take for
    a token error: no route answers 500. *)
Theorem app_answers_500_iff (sb : Client) (isEmail : string -> bool)
    (development : bool) (now : string) (i : Application.Incoming) (w : World) :
  exists a w',
    Application.app sb isEmail development now i w = (Resolved a, w')
    /\ match i with
       | Application.Preflight => a = Application.NoContent 204 /\ w' = w
       | Application.Unparsable err =>
           a = Application.Sent (errorHandler development err) /\ w' = w
       | Application.Parsed e req =>
           exists r, a = Application.Sent r
                     /\ serve sb isEmail development now e req w = (Resolved r, w')
                     /\ status r ∈ statuses e
       end
    /\ (Application.answer_status a = 500 <->
        exists err, i = Application.Unparsable err
                    /\ err_name err <> Some "JsonWebTokenError"
                    /\ err_name err <> Some "TokenExpiredError").
Proof.
  destruct i as [|err|e req].
  - exists (Application.NoContent 204), w. split; [reflexivity|].
    split; [done|]. simpl. split; [discriminate|]. by intros (err & [=] & _).
  - exists (Application.Sent (errorHandler development err)), w.
    split; [reflexivity|]. split; [done|]. simpl.
    rewrite errorHandler_status. split.
    + intros H. exists err. split; [reflexivity|].
      repeat case_bool_decide; try discriminate H. done.
    + intros (err' & [= <-] & Hjwt & Hexp).
      by repeat case_bool_decide.
  - destruct (serve_statuses sb isEmail development now e req w)
      as (r & w' & Hserve & Hst & Hnot).
    exists (Application.Sent r), w'.
    split; [by apply app_parsed|]. split; [by exists r|]. simpl.
    split; [done|]. by intros (err & [=] & _).
Qed.


